(** * epub-receiver: the upload request pipeline of [main.go]

  A shallow embedding of [uploadHandler] and of the library calls it makes
  (strings, path/filepath, time, fmt, os, io, net/http), followed by the
  properties of the pipeline: gatekeeping, bounded decoding, validation,
  name derivation, persistence and clean-up. *)

From Stdlib Require Import ZArith NArith Ascii String List Bool Lia.
From Stdlib Require Import Strings.Byte.
From stdpp Require Import base option list strings gmap fin_maps.

Local Open Scope string_scope.
#[local] Arguments String.append !_ _ /.

(** ** Go strings

  A Go string is a sequence of bytes; it is embedded as [string], whose
  characters are the 256 values of [ascii]. *)
Module GoString.

Definition slash : ascii := "/"%char.

Definition isSlash (c : ascii) : bool := Ascii.eqb c slash.

(** [c >= 'A' && c <= 'Z'] *)
Definition isUpper (c : ascii) : bool :=
  let n := N_of_ascii c in (65 <=? n)%N && (n <=? 90)%N.

(** [c >= '0' && c <= '9'] *)
Definition isDigit (c : ascii) : bool :=
  let n := N_of_ascii c in (48 <=? n)%N && (n <=? 57)%N.

(** [c += 'a' - 'A'] on the upper-case ASCII letters. *)
Definition lowerByte (c : ascii) : ascii :=
  if isUpper c then ascii_of_N (N_of_ascii c + 32) else c.

Fixpoint mapBytes (f : ascii -> ascii) (s : string) : string :=
  match s with
  | EmptyString => EmptyString
  | String c r => String (f c) (mapBytes f r)
  end.

(** [strings.ToLower].  The upper-case ASCII letters are folded and every
    other byte is kept.  Go also folds the runes outside ASCII; none of
    them folds to a byte of the suffix the handler looks for, and the
    handler uses the folded string for that one test only. *)
Definition ToLower (s : string) : string := mapBytes lowerByte s.

(** [s[n:]] for [n <= len(s)]. *)
Fixpoint drop (n : nat) (s : string) : string :=
  match n, s with
  | O, _ => s
  | S n', String _ r => drop n' r
  | S _, EmptyString => EmptyString
  end.

(** [strings.HasSuffix]:
    [len(s) >= len(suffix) && s[len(s)-len(suffix):] == suffix]. *)
Definition HasSuffix (s suffix : string) : bool :=
  (String.length suffix <=? String.length s)%nat
  && String.eqb (drop (String.length s - String.length suffix) s) suffix.

Fixpoint hasSlash (s : string) : bool :=
  match s with
  | EmptyString => false
  | String c r => isSlash c || hasSlash r
  end.

(** [strings.Join(elems, sep)] *)
Fixpoint Join (elems : list string) (sep : string) : string :=
  match elems with
  | [] => EmptyString
  | [e] => e
  | e :: rest => e ++ sep ++ Join rest sep
  end.

(** [strings.Repeat] *)
Fixpoint Repeat (s : string) (count : nat) : string :=
  match count with
  | O => EmptyString
  | S n => s ++ Repeat s n
  end.

(** [strings.Split(s, "/")] *)
Fixpoint splitSlash (s : string) : list string :=
  match s with
  | EmptyString => [EmptyString]
  | String c r =>
      if isSlash c then EmptyString :: splitSlash r
      else match splitSlash r with
           | h :: t => String c h :: t
           | [] => [String c EmptyString]
           end
  end.

End GoString.

(** ** path/filepath on a Unix target (the separator is the slash) *)
Module filepath.
Import GoString.

(** The loop [for len(path) > 0 && os.IsPathSeparator(path[len(path)-1])]
    of [Base]: the trailing separators are dropped. *)
Fixpoint stripTrailingSlashes (s : string) : string :=
  match s with
  | EmptyString => EmptyString
  | String c r =>
      match stripTrailingSlashes r with
      | EmptyString => if isSlash c then EmptyString else String c EmptyString
      | r' => String c r'
      end
  end.

(** The second loop of [Base]: what follows the last separator, the whole
    path when it has none. *)
Fixpoint lastElement (s : string) : string :=
  match s with
  | EmptyString => EmptyString
  | String c r =>
      if hasSlash r then lastElement r
      else if isSlash c then r
      else String c r
  end.

(** [filepath.Base] *)
Definition Base (path : string) : string :=
  if String.eqb path "" then "."
  else
    let path := lastElement (stripTrailingSlashes path) in
    if String.eqb path "" then "/" else path.

(** One step of [Clean] on the stack of kept elements (last one first):
    empty and "." elements are dropped, ".." removes the element before it,
    is dropped at the root and is kept at the start of a relative path. *)
Definition cleanStep (rooted : bool) (stack : list string) (e : string)
  : list string :=
  if String.eqb e "" then stack
  else if String.eqb e "." then stack
  else if String.eqb e ".." then
    match stack with
    | top :: below =>
        if String.eqb top ".." then e :: stack else below
    | [] => if rooted then [] else [e]
    end
  else e :: stack.

(** [filepath.Clean] *)
Definition Clean (path : string) : string :=
  match path with
  | EmptyString => "."
  | String c _ =>
      let rooted := isSlash c in
      let kept := rev (fold_left (cleanStep rooted) (splitSlash path) []) in
      let out := (if rooted then "/" else "") ++ GoString.Join kept "/" in
      if String.eqb out "" then "." else out
  end.

(** [filepath.Join]: the elements from the first non-empty one on are joined
    with the separator and the result is cleaned; [""] when all are empty. *)
Fixpoint Join (elem : list string) : string :=
  match elem with
  | [] => ""
  | e :: rest =>
      if String.eqb e "" then Join rest
      else Clean (GoString.Join elem "/")
  end.

End filepath.

(** ** Decimal output shared by [time] and [fmt] *)
Module strconv.

(** ['0' + byte(u)] *)
Definition utod (u : Z) : ascii := ascii_of_N (Z.to_N (48 + u)).

(** The digit loop [for u >= 10 { ...; u /= 10 }] followed by the last
    digit; [fuel] bounds the number of digits. *)
Fixpoint utoa (fuel : nat) (u : Z) (acc : string) : string :=
  match fuel with
  | O => acc
  | S fuel' =>
      let acc' := String (utod (u mod 10)) acc in
      if (u <? 10)%Z then acc' else utoa fuel' (u / 10) acc'
  end.

(** A number below [2^(k+1)] has at most [k+1] decimal digits. *)
Definition digitFuel (u : Z) : nat := S (Z.to_nat (Z.log2 u)).

(** The decimal digits of [u >= 0]. *)
Definition FormatUint (u : Z) : string := utoa (digitFuel u) u "".

(** [strconv.FormatInt(i, 10)] *)
Definition FormatInt (i : Z) : string :=
  if (i <? 0)%Z then String "-"%char (FormatUint (- i)) else FormatUint i.

Fixpoint zeros (n : nat) : string :=
  match n with
  | O => ""
  | S n' => String "0"%char (zeros n')
  end.

End strconv.

(** ** package time: the wall clock and [Time.Format] *)
Module time.
Import strconv.

(** What [Format] reads of a [time.Time]: the fields of the local date and
    clock. *)
Record Time := {
  Year : Z; Month : Z; Day : Z;
  Hour : Z; Minute : Z; Second : Z
}.

(** A date of the common era with a year of at most four digits. *)
Definition valid (t : Time) : Prop :=
  (0 <= Year t <= 9999 /\ 1 <= Month t <= 12 /\ 1 <= Day t <= 31 /\
   0 <= Hour t <= 23 /\ 0 <= Minute t <= 59 /\ 0 <= Second t <= 59)%Z.

(** [appendInt(b, x, width)]: the sign, then the digits padded with zeros
    to [width], with the two fast paths of the library. *)
Definition appendInt (x : Z) (width : nat) : string :=
  let sign := if (x <? 0)%Z then "-" else "" in
  let u := Z.abs x in
  if Nat.eqb width 2 && (u <? 100)%Z then
    sign ++ String (utod (u / 10)) (String (utod (u mod 10)) "")
  else if Nat.eqb width 4 && (u <? 10000)%Z then
    sign ++ String (utod (u / 1000))
              (String (utod (u / 100 mod 10))
                 (String (utod (u / 10 mod 10))
                    (String (utod (u mod 10)) "")))
  else
    let digits := FormatUint u in
    sign ++ zeros (width - String.length digits) ++ digits.

(** [len(s) >= len(p) && s[:len(p)] == p] *)
Fixpoint startsWith (p s : string) : bool :=
  match p, s with
  | EmptyString, _ => true
  | String a p', String b s' => Ascii.eqb a b && startsWith p' s'
  | String _ _, EmptyString => false
  end.

(** [Time.Format] for layouts made of the numeric chunks [2006], [01],
    [02], [15], [04], [05] and of literal bytes; [skip] counts the bytes
    of a chunk still to pass over. *)
Fixpoint formatFrom (t : Time) (skip : nat) (layout : string) : string :=
  match layout with
  | EmptyString => ""
  | String c rest =>
      match skip with
      | S k => formatFrom t k rest
      | O =>
          if startsWith "2006" layout then
            appendInt (Year t) 4 ++ formatFrom t 3 rest
          else if startsWith "01" layout then
            appendInt (Month t) 2 ++ formatFrom t 1 rest
          else if startsWith "02" layout then
            appendInt (Day t) 2 ++ formatFrom t 1 rest
          else if startsWith "15" layout then
            appendInt (Hour t) 2 ++ formatFrom t 1 rest
          else if startsWith "04" layout then
            appendInt (Minute t) 2 ++ formatFrom t 1 rest
          else if startsWith "05" layout then
            appendInt (Second t) 2 ++ formatFrom t 1 rest
          else String c (formatFrom t 0 rest)
      end
  end.

Definition Format (t : Time) (layout : string) : string :=
  formatFrom t 0 layout.

End time.

(** ** package fmt *)
Module fmt.

(** The operands the handler passes: strings (and errors, printed by their
    message) and integers. *)
Inductive operand :=
| Str (s : string)
| Int (i : Z).

(** The text of one verb.  A verb that does not fit its operand prints a
    diagnostic in Go; the handler has no such verb. *)
Definition render (verb : ascii) (a : operand) : string :=
  match a with
  | Str s =>
      if Ascii.eqb verb "s" || Ascii.eqb verb "v" then s
      else "%!" ++ String verb "(string=" ++ s ++ ")"
  | Int i =>
      if Ascii.eqb verb "d" || Ascii.eqb verb "v" then strconv.FormatInt i
      else "%!" ++ String verb "(int=" ++ strconv.FormatInt i ++ ")"
  end.

(** [fmt.Sprintf]: [pending] is set after a percent sign. *)
Fixpoint sprintf (pending : bool) (format : string) (args : list operand)
  : string :=
  match format with
  | EmptyString => if pending then "%!(NOVERB)" else ""
  | String c rest =>
      if pending then
        if Ascii.eqb c "%" then String c (sprintf false rest args)
        else match args with
             | a :: args' => render c a ++ sprintf false rest args'
             | [] => "%!" ++ String c "(MISSING)" ++ sprintf false rest []
             end
      else if Ascii.eqb c "%" then sprintf true rest args
      else String c (sprintf false rest args)
  end.

Definition Sprintf (format : string) (args : list operand) : string :=
  sprintf false format args.

End fmt.

(** ** package os: the files of the host and the faults of its storage *)
Module os.

Abbreviation FS := (gmap string (list byte)).

(** The faults the storage shows to one request: an error of [os.Create],
    an error of the write after a number of bytes, an error of
    [os.Remove]. *)
Record Faults := {
  createErr : option string;
  writeErr : option (nat * string);
  removeErr : option string
}.

Definition noFaults : Faults :=
  {| createErr := None; writeErr := None; removeErr := None |}.

(** [os.Getenv]: the empty string when the variable is not set. *)
Definition Getenv (environ : gmap string string) (key : string) : string :=
  default "" (environ !! key).

(** [os.Create]: the file is created, or truncated when it exists. *)
Definition Create (fl : Faults) (fs : FS) (name : string) : FS * option string :=
  match createErr fl with
  | Some e => (fs, Some e)
  | None => (<[name := []]> fs, None)
  end.

(** [os.Remove] *)
Definition Remove (fl : Faults) (fs : FS) (name : string) : FS * option string :=
  match removeErr fl with
  | Some e => (fs, Some e)
  | None =>
      match fs !! name with
      | Some _ => (delete name fs, None)
      | None => (fs, Some "no such file or directory")
      end
  end.

End os.

(** ** package io *)
Module io.
Import os.

(** [io.Copy(dst, src)] into the file just opened at [name]: every byte of
    [src] is written, or the bytes before the fault.  The result is the
    file system, the count of bytes written and the error. *)
Definition Copy (fl : Faults) (fs : FS) (name : string) (src : list byte)
  : FS * Z * option string :=
  match writeErr fl with
  | Some (n, e) =>
      let written := take n src in
      (<[name := written]> fs, Z.of_nat (length written), Some e)
  | None => (<[name := src]> fs, Z.of_nat (length src), None)
  end.

End io.

(** ** package net/http *)
Module http.

Definition MethodPost : string := "POST".
Definition StatusOK : Z := 200.
Definition StatusBadRequest : Z := 400.
Definition StatusUnauthorized : Z := 401.
Definition StatusNotFound : Z := 404.
Definition StatusMethodNotAllowed : Z := 405.
Definition StatusInternalServerError : Z := 500.

(** [multipart.FileHeader] with the bytes [Open] gives. *)
Record FileHeader := { Filename : string; content : list byte }.

(** [multipart.Form] *)
Record Form := {
  Value : gmap string (list string);
  File : gmap string (list FileHeader)
}.

(** The request body: its length on the wire and the form the multipart
    decoder extracts when all of it is read ([None] for a body that is not
    a well-formed multipart form). *)
Record Body := { wireLen : Z; decoded : option Form }.

Record Request := {
  Method : string;
  Path : string;
  Query : gmap string (list string);   (* r.URL.Query() *)
  body : Body
}.

(** [url.Values.Get]: the first value of the key, [""] without one. *)
Definition Get (v : gmap string (list string)) (key : string) : string :=
  match v !! key with
  | Some (x :: _) => x
  | _ => ""
  end.

(** A body behind [http.MaxBytesReader]. *)
Record LimitedBody := { limit : Z; underlying : Body }.

Definition MaxBytesReader (b : Body) (n : Z) : LimitedBody :=
  {| limit := n; underlying := b |}.

(** [Request.ParseMultipartForm] on a limited body.  The whole body is
    parsed: the reader hands over the body up to its limit and fails on
    the read beyond it.  The result is the count of bytes taken from the
    body and the form, [None] on an error. *)
Definition ParseMultipartForm (b : LimitedBody) : Z * option Form :=
  if (limit b <? wireLen (underlying b))%Z then (limit b, None)
  else (wireLen (underlying b), decoded (underlying b)).

(** [Request.FormFile]: the first file of the key. *)
Definition FormFile (f : Form) (key : string) : option (list byte * FileHeader) :=
  match File f !! key with
  | Some (fh :: _) => Some (content fh, fh)
  | _ => None   (* http.ErrMissingFile *)
  end.

(** What a handler leaves in its [http.ResponseWriter]. *)
Record Response := {
  Header : gmap string string;
  StatusCode : Z;
  Payload : string
}.

Definition newline : string := String "010"%char "".

(** [http.Error] *)
Definition Error (error : string) (code : Z) : Response :=
  {| Header := <["X-Content-Type-Options" := "nosniff"]>
                 (<["Content-Type" := "text/plain; charset=utf-8"]> ∅);
     StatusCode := code;
     Payload := error ++ newline |}.

End http.

(** ** main.go *)
Module main.
Import GoString os http.

Definition UPLOAD_DIR : string := "/app/uploads".
Definition MAX_FILE_SIZE : Z := Z.shiftl 50 20.   (* 50MB *)

Definition quote : string := String "034"%char "".

(** The format of the success body,
    [{"status": "success", "filename": "%s", "size": %d}]. *)
Definition successFormat : string :=
  "{" ++ quote ++ "status" ++ quote ++ ": " ++ quote ++ "success" ++ quote
  ++ ", " ++ quote ++ "filename" ++ quote ++ ": " ++ quote ++ "%s" ++ quote
  ++ ", " ++ quote ++ "size" ++ quote ++ ": %d}".

(** The body of the health check, [{"status": "healthy"}]. *)
Definition healthBody : string :=
  "{" ++ quote ++ "status" ++ quote ++ ": " ++ quote ++ "healthy" ++ quote
  ++ "}".

(** What the surroundings give one request: the clock and the faults of
    the storage. *)
Record Env := { now : time.Time; faults : Faults }.

(** What a handler leaves behind: the response, the files, the lines
    logged and the count of bytes taken from the request body.  The two
    deferred [Close] calls release handles and change none of these. *)
Record Outcome := {
  response : Response;
  files : FS;
  logged : list string;
  bodyRead : Z
}.

Definition uploadHandler (env : Env) (fs : FS) (r : Request) (apiKey : string)
  : Outcome :=
  (* Only allow POST requests *)
  if negb (String.eqb (Method r) MethodPost) then
    {| response := Error "Method not allowed" StatusMethodNotAllowed;
       files := fs; logged := []; bodyRead := 0 |}
  else
  (* Validate API key from query parameters *)
  let requestAPIKey := Get (Query r) "api_key" in
  if negb (String.eqb requestAPIKey apiKey) then
    {| response := Error "Invalid API key" StatusUnauthorized;
       files := fs; logged := []; bodyRead := 0 |}
  else
  (* Parse multipart form with size limit *)
  match ParseMultipartForm (MaxBytesReader (body r) MAX_FILE_SIZE) with
  | (read, None) =>
      {| response := Error "File too large or invalid form" StatusBadRequest;
         files := fs; logged := []; bodyRead := read |}
  | (read, Some form) =>
  (* Get the uploaded file *)
  match FormFile form "epub" with
  | None =>
      {| response := Error "Failed to get uploaded file" StatusBadRequest;
         files := fs; logged := []; bodyRead := read |}
  | Some (file, header) =>
  (* Validate file extension *)
  let filename := Filename header in
  if negb (HasSuffix (ToLower filename) ".epub") then
    {| response := Error "File must be an EPUB" StatusBadRequest;
       files := fs; logged := []; bodyRead := read |}
  else
  (* Generate unique filename with timestamp *)
  let timestamp := time.Format (now env) "20060102_150405" in
  let safeFilename :=
    fmt.Sprintf "%s_%s" [fmt.Str timestamp; fmt.Str (filepath.Base filename)] in
  let destPath := filepath.Join [UPLOAD_DIR; safeFilename] in
  (* Create destination file *)
  match os.Create (faults env) fs destPath with
  | (fs1, Some err) =>
      {| response := Error "Failed to save file" StatusInternalServerError;
         files := fs1;
         logged := [fmt.Sprintf "Failed to create destination file: %v"
                      [fmt.Str err]];
         bodyRead := read |}
  | (fs1, None) =>
  (* Copy uploaded file to destination *)
  match io.Copy (faults env) fs1 destPath file with
  | (fs2, bytesWritten, Some err) =>
      (* Clean up partial file; the error of the removal is dropped *)
      let fs3 := fst (os.Remove (faults env) fs2 destPath) in
      {| response := Error "Failed to save file" StatusInternalServerError;
         files := fs3;
         logged := [fmt.Sprintf "Failed to copy file: %v" [fmt.Str err]];
         bodyRead := read |}
  | (fs2, bytesWritten, None) =>
      (* Return success response *)
      {| response :=
           {| Header := <["Content-Type" := "application/json"]> ∅;
              StatusCode := StatusOK;
              Payload := fmt.Sprintf successFormat
                           [fmt.Str safeFilename; fmt.Int bytesWritten] |};
         files := fs2;
         logged := [fmt.Sprintf "Successfully uploaded EPUB: %s (%d bytes)"
                      [fmt.Str safeFilename; fmt.Int bytesWritten]];
         bodyRead := read |}
  end end end end.

Definition healthHandler (fs : FS) (r : Request) : Outcome :=
  {| response := {| Header := <["Content-Type" := "application/json"]> ∅;
                    StatusCode := StatusOK;
                    Payload := healthBody |};
     files := fs; logged := []; bodyRead := 0 |}.

(** [func uploadHandlerWithKey(apiKey string) http.HandlerFunc] *)
Definition uploadHandlerWithKey (apiKey : string) (env : Env) (fs : FS)
    (r : Request) : Outcome :=
  uploadHandler env fs r apiKey.

(** The server [main] starts: the key its upload handler closes over and
    the port it listens on. *)
Record Server := { serverKey : string; serverPort : string }.

(** [main] up to [http.ListenAndServe]; [None] stands for [log.Fatal].
    [mkdirOk] tells whether [os.MkdirAll(UPLOAD_DIR, 0755)] succeeds. *)
Definition main (environ : gmap string string) (mkdirOk : bool)
  : option Server :=
  let apiKey := Getenv environ "API_KEY" in
  if String.eqb apiKey "" then None
  else if negb mkdirOk then None
  else
    let port := Getenv environ "PORT" in
    let port := if String.eqb port "" then "8080" else port in
    Some {| serverKey := apiKey; serverPort := port |}.

(** The two routes registered with [http.HandleFunc]; any other path gets
    the 404 of the default mux. *)
Definition serve (s : Server) (env : Env) (fs : FS) (r : Request) : Outcome :=
  if String.eqb (Path r) "/upload" then
    uploadHandlerWithKey (serverKey s) env fs r
  else if String.eqb (Path r) "/health" then healthHandler fs r
  else {| response := Error "404 page not found" StatusNotFound;
          files := fs; logged := []; bodyRead := 0 |}.

(** [maskAPIKey] *)
Definition maskAPIKey (key : string) : string :=
  let n := String.length key in
  if (n <=? 8)%nat then "****"
  else substring 0 4 key ++ GoString.Repeat "*" (n - 8)
       ++ substring (n - 4) 4 key.

End main.

(** ** Reading the responses back

  What a client does with the success body: it reads a JSON object (RFC
  8259) whose members are strings or integers.  The reader is one pass over
  the bytes. *)
Module json.

Inductive token :=
| LBrace | RBrace | Colon | Comma
| TString (s : string)
| TNumber (n : Z).

Inductive value :=
| JString (s : string)
| JNumber (n : Z).

(** Where the reader is: between tokens, inside a string (after a
    backslash, or with [k] hexadecimal digits of a [\u] escape still to
    come), or inside a number. *)
Inductive state :=
| Idle
| InString (acc : string)
| Escaped (acc : string)
| Hex (k : nat) (code : N) (acc : string)
| Minus
| Zero (neg : bool)
| Digits (neg : bool) (v : Z).

Definition isSpace (c : ascii) : bool :=
  let n := N_of_ascii c in
  N.eqb n 32 || N.eqb n 9 || N.eqb n 10 || N.eqb n 13.

Definition isQuote (c : ascii) : bool := N.eqb (N_of_ascii c) 34.
Definition isBackslash (c : ascii) : bool := N.eqb (N_of_ascii c) 92.

(** A byte that stands for itself inside a JSON string. *)
Definition plainByte (c : ascii) : bool :=
  negb (isQuote c) && negb (isBackslash c) && (32 <=? N_of_ascii c)%N.

Fixpoint plain (s : string) : bool :=
  match s with
  | EmptyString => true
  | String c r => plainByte c && plain r
  end.

Definition digitValue (c : ascii) : Z := Z.of_N (N_of_ascii c) - 48.

Definition hexValue (c : ascii) : option N :=
  let n := N_of_ascii c in
  if (48 <=? n)%N && (n <=? 57)%N then Some (n - 48)%N
  else if (65 <=? n)%N && (n <=? 70)%N then Some (n - 55)%N
  else if (97 <=? n)%N && (n <=? 102)%N then Some (n - 87)%N
  else None.

(** The character a two-byte escape stands for. *)
Definition unescape (c : ascii) : option ascii :=
  if isQuote c then Some c
  else if isBackslash c then Some c
  else if Ascii.eqb c "/" then Some c
  else if Ascii.eqb c "b" then Some (ascii_of_N 8)
  else if Ascii.eqb c "f" then Some (ascii_of_N 12)
  else if Ascii.eqb c "n" then Some (ascii_of_N 10)
  else if Ascii.eqb c "r" then Some (ascii_of_N 13)
  else if Ascii.eqb c "t" then Some (ascii_of_N 9)
  else None.

(** UTF-8 of a code point of the basic plane. *)
Definition utf8 (code : N) : string :=
  if (code <? 128)%N then String (ascii_of_N code) ""
  else if (code <? 2048)%N then
    String (ascii_of_N (192 + code / 64))
      (String (ascii_of_N (128 + code mod 64)) "")
  else
    String (ascii_of_N (224 + code / 4096))
      (String (ascii_of_N (128 + (code / 64) mod 64))
         (String (ascii_of_N (128 + code mod 64)) "")).

Definition numberToken (neg : bool) (v : Z) : token :=
  TNumber (if neg then (- v)%Z else v).

(** A byte met between tokens. *)
Definition idleStep (c : ascii) : option (state * list token) :=
  if isSpace c then Some (Idle, [])
  else if Ascii.eqb c "{" then Some (Idle, [LBrace])
  else if Ascii.eqb c "}" then Some (Idle, [RBrace])
  else if Ascii.eqb c ":" then Some (Idle, [Colon])
  else if Ascii.eqb c "," then Some (Idle, [Comma])
  else if isQuote c then Some (InString "", [])
  else if Ascii.eqb c "-" then Some (Minus, [])
  else if Ascii.eqb c "0" then Some (Zero false, [])
  else if GoString.isDigit c then Some (Digits false (digitValue c), [])
  else None.

(** A byte that ends a number: the number is emitted and the byte is read
    as one between tokens. *)
Definition afterNumber (t : token) (c : ascii) : option (state * list token) :=
  match idleStep c with
  | Some (Idle, emitted) => Some (Idle, t :: emitted)
  | _ => None
  end.

Definition step (st : state) (c : ascii) : option (state * list token) :=
  match st with
  | Idle => idleStep c
  | InString acc =>
      if isQuote c then Some (Idle, [TString acc])
      else if isBackslash c then Some (Escaped acc, [])
      else if plainByte c then Some (InString (acc ++ String c ""), [])
      else None
  | Escaped acc =>
      if Ascii.eqb c "u" then Some (Hex 4 0%N acc, [])
      else match unescape c with
           | Some b => Some (InString (acc ++ String b ""), [])
           | None => None
           end
  | Hex k code acc =>
      match hexValue c, k with
      | Some h, 1%nat => Some (InString (acc ++ utf8 (code * 16 + h)), [])
      | Some h, S k' => Some (Hex k' (code * 16 + h)%N acc, [])
      | _, _ => None
      end
  | Minus =>
      if Ascii.eqb c "0" then Some (Zero true, [])
      else if GoString.isDigit c then Some (Digits true (digitValue c), [])
      else None
  | Zero neg =>
      if GoString.isDigit c then None else afterNumber (numberToken neg 0) c
  | Digits neg v =>
      if GoString.isDigit c then Some (Digits neg (v * 10 + digitValue c)%Z, [])
      else afterNumber (numberToken neg v) c
  end.

(** The tokens of a text. *)
Fixpoint scan (st : state) (s : string) (out : list token)
  : option (list token) :=
  match s with
  | EmptyString =>
      match st with
      | Idle => Some out
      | Zero neg => Some (out ++ [numberToken neg 0])%list
      | Digits neg v => Some (out ++ [numberToken neg v])%list
      | _ => None
      end
  | String c r =>
      match step st c with
      | Some (st', emitted) => scan st' r (out ++ emitted)%list
      | None => None
      end
  end.

Definition valueOf (t : token) : option value :=
  match t with
  | TString s => Some (JString s)
  | TNumber n => Some (JNumber n)
  | _ => None
  end.

(** [member ("," member)* "}"] *)
Fixpoint members (ts : list token) : option (list (string * value)) :=
  match ts with
  | TString k :: Colon :: t :: rest =>
      match valueOf t with
      | Some v =>
          match rest with
          | [RBrace] => Some [(k, v)]
          | Comma :: rest' =>
              match members rest' with
              | Some ms => Some ((k, v) :: ms)
              | None => None
              end
          | _ => None
          end
      | None => None
      end
  | _ => None
  end.

(** The members of the object a text denotes, in order; [None] for a text
    that is not such an object. *)
Definition readObject (s : string) : option (list (string * value)) :=
  match scan Idle s [] with
  | Some (LBrace :: [RBrace]) => Some []
  | Some (LBrace :: ts) => members ts
  | _ => None
  end.

End json.

(** ** The vocabulary of the properties *)
Module Props.
Import GoString http main.

(** [\d{n}] at the head of [s]: what follows it. *)
Fixpoint digitsThen (n : nat) (s : string) : option string :=
  match n with
  | O => Some s
  | S n' =>
      match s with
      | String c r => if isDigit c then digitsThen n' r else None
      | EmptyString => None
      end
  end.

(** The pattern [\d{8}_\d{6}_<original>], anchored at both ends. *)
Definition stamped (original name : string) : bool :=
  match digitsThen 8 name with
  | Some (String c r) =>
      Ascii.eqb c "_" &&
      match digitsThen 6 r with
      | Some rest => String.eqb rest ("_" ++ original)
      | None => false
      end
  | _ => false
  end.

(** The object of the success body. *)
Definition successObject (name : string) (size : Z)
  : list (string * json.value) :=
  [("status", json.JString "success");
   ("filename", json.JString name);
   ("size", json.JNumber size)].

(** A path directly under the upload root: the root, a separator and one
    element that is a proper file name. *)
Definition insideRoot (path : string) : Prop :=
  exists name, path = UPLOAD_DIR ++ "/" ++ name
               /\ hasSlash name = false
               /\ name <> "" /\ name <> "." /\ name <> "..".

(** A POST that carries the key, whose body fits the ceiling and decodes
    to a form whose first file of the field [epub] is [fh]. *)
Definition carries (r : Request) (apiKey : string) (fh : FileHeader) : Prop :=
  Method r = MethodPost /\
  Get (Query r) "api_key" = apiKey /\
  (wireLen (body r) <= MAX_FILE_SIZE)%Z /\
  exists form rest,
    decoded (body r) = Some form /\ File form !! "epub" = Some (fh :: rest).

(** The storage creates and writes without an error. *)
Definition storageSound (env : Env) : Prop :=
  os.createErr (faults env) = None /\ os.writeErr (faults env) = None.

(** The last byte of a text, [None] for the empty one. *)
Fixpoint final (s : string) : option ascii :=
  match s with
  | EmptyString => None
  | String c EmptyString => Some c
  | String _ r => final r
  end.

(** The layout of the time stamp. *)
Definition layout : string := "20060102_150405".

(** The fourteen digits of the stamp of a calendar date. *)
Definition stampDigits (t : time.Time) : list Z :=
  [time.Year t / 1000; time.Year t / 100 mod 10; time.Year t / 10 mod 10;
   time.Year t mod 10;
   time.Month t / 10; time.Month t mod 10;
   time.Day t / 10; time.Day t mod 10;
   time.Hour t / 10; time.Hour t mod 10;
   time.Minute t / 10; time.Minute t mod 10;
   time.Second t / 10; time.Second t mod 10]%Z.

(** The name the handler stores a file under, and its path (the bindings
    [safeFilename] and [destPath] of the handler). *)
Definition safeFilename (t : time.Time) (filename : string) : string :=
  fmt.Sprintf "%s_%s"
    [fmt.Str (time.Format t layout); fmt.Str (filepath.Base filename)].

Definition destPath (t : time.Time) (filename : string) : string :=
  filepath.Join [UPLOAD_DIR; safeFilename t filename].

(** A name that ends in [.epub], the case of the letters set aside. *)
Definition endsInEpub (filename : string) : Prop :=
  exists p c1 c2 c3 c4,
    filename = p ++ String "." (String c1 (String c2 (String c3 (String c4 ""))))
    /\ (c1 = "e" \/ c1 = "E")%char /\ (c2 = "p" \/ c2 = "P")%char
    /\ (c3 = "u" \/ c3 = "U")%char /\ (c4 = "b" \/ c4 = "B")%char.

(** The request with another body. *)
Definition withBody (r : Request) (b : Body) : Request :=
  {| Method := Method r; Path := Path r; Query := Query r; body := b |}.

(** A text without a separator whose bytes all stand for themselves inside a
    JSON string. *)
Definition tame (s : string) : Prop :=
  hasSlash s = false /\ json.plain s = true.

(** The replies of the handler other than the success: the message and the
    status of each [http.Error] in it. *)
Definition errorReplies : list (string * Z) :=
  [("Method not allowed", StatusMethodNotAllowed);
   ("Invalid API key", StatusUnauthorized);
   ("File too large or invalid form", StatusBadRequest);
   ("Failed to get uploaded file", StatusBadRequest);
   ("File must be an EPUB", StatusBadRequest);
   ("Failed to save file", StatusInternalServerError)].

(** The statuses of the requests turned away before the storage is
    touched. *)
Definition clientError (code : Z) : bool :=
  (code =? 400)%Z || (code =? 401)%Z || (code =? 405)%Z.

End Props.

(** ** Sample requests *)
Module Sample.
Import http main.

Definition clock : time.Time :=
  {| time.Year := 2024; time.Month := 3; time.Day := 9;
     time.Hour := 7; time.Minute := 5; time.Second := 59 |}.

Definition laterClock : time.Time :=
  {| time.Year := 2024; time.Month := 3; time.Day := 9;
     time.Hour := 7; time.Minute := 6; time.Second := 0 |}.

Definition data : list byte := ["P"%byte; "K"%byte; x03; x04].

Definition header (filename : string) : FileHeader :=
  {| Filename := filename; content := data |}.

Definition form (filename : string) : Form :=
  {| Value := ∅; File := {["epub" := [header filename]]} |}.

Definition request (method key filename : string) (size : Z) : Request :=
  {| Method := method; Path := "/upload";
     Query := {["api_key" := [key]]};
     body := {| wireLen := size; decoded := Some (form filename) |} |}.

(** A POST without any key in its query. *)
Definition keyless (filename : string) : Request :=
  {| Method := "POST"; Path := "/upload"; Query := ∅;
     body := {| wireLen := 300; decoded := Some (form filename) |} |}.

Definition env (t : time.Time) (fl : os.Faults) : Env :=
  {| now := t; faults := fl |}.

(** The write fails after two bytes; the removal fails too in the second
    plan. *)
Definition writeFault : os.Faults :=
  {| os.createErr := None; os.writeErr := Some (2%nat, "no space left on device");
     os.removeErr := None |}.

Definition writeAndRemoveFault : os.Faults :=
  {| os.createErr := None; os.writeErr := Some (2%nat, "no space left on device");
     os.removeErr := Some "permission denied" |}.

(** A declared name with a double quote in it. *)
Definition quotedName : string := "a" ++ quote ++ "b.epub".

Definition environ : gmap string string := {["API_KEY" := "s3cret"]}.

(** A form without a file, and the POST that carries a given form. *)
Definition emptyForm : Form := {| Value := ∅; File := ∅ |}.

Definition posted (key : string) (decodedForm : option Form) : Request :=
  {| Method := "POST"; Path := "/upload";
     Query := {["api_key" := [key]]};
     body := {| wireLen := 300; decoded := decodedForm |} |}.

Definition createFault : os.Faults :=
  {| os.createErr := Some "permission denied"; os.writeErr := None;
     os.removeErr := None |}.

Definition otherData : list byte := ["e"%byte; "p"%byte].

Definition otherRequest (filename : string) : Request :=
  {| Method := "POST"; Path := "/upload";
     Query := {["api_key" := ["k"]]};
     body := {| wireLen := 200;
                decoded := Some {| Value := ∅;
                                   File := {["epub" := [{| Filename := filename;
                                                           content := otherData |}]]} |} |} |}.

Definition health : Request :=
  {| Method := "DELETE"; Path := "/health"; Query := ∅;
     body := {| wireLen := 0; decoded := None |} |}.

End Sample.

(** * Properties *)

(** ** Strings *)
Module StringFacts.
Import GoString Props.

Lemma append_nil_r (s : string) : s ++ "" = s.
Proof. induction s as [|c s IH]; simpl; [reflexivity | now rewrite IH]. Qed.

Lemma append_assoc (a b c : string) : (a ++ b) ++ c = a ++ (b ++ c).
Proof. induction a as [|x a IH]; simpl; [reflexivity | now rewrite IH]. Qed.

Lemma length_append (a b : string) :
  String.length (a ++ b) = (String.length a + String.length b)%nat.
Proof. induction a as [|x a IH]; simpl; [reflexivity | now rewrite IH]. Qed.

(** Two texts that agree after prefixes of one length agree on the
    prefixes. *)
Lemma append_inj_length (a b c d : string) :
  String.length a = String.length c -> a ++ b = c ++ d -> a = c /\ b = d.
Proof.
  revert c. induction a as [|x a IH]; intros [|y c] Hlen Heq;
    simpl in *; try discriminate.
  - split; [reflexivity | assumption].
  - injection Heq as -> Heq. injection Hlen as Hlen.
    destruct (IH c Hlen Heq) as [-> ->]. split; reflexivity.
Qed.

Lemma hasSlash_append (a b : string) :
  hasSlash (a ++ b) = hasSlash a || hasSlash b.
Proof.
  induction a as [|x a IH]; simpl; [reflexivity |].
  now rewrite IH, orb_assoc.
Qed.

Lemma isSlash_true (c : ascii) : isSlash c = true -> c = slash.
Proof. unfold isSlash. apply Ascii.eqb_eq. Qed.

(** [drop] leaves a text of which the argument is an extension. *)
Lemma drop_suffix (n : nat) (s : string) : exists p, s = p ++ drop n s.
Proof.
  revert s. induction n as [|n IH]; intros s.
  - exists "". reflexivity.
  - destruct s as [|c s]; [exists ""; reflexivity |].
    destruct (IH s) as [p Hp]. exists (String c p). simpl. now rewrite <- Hp.
Qed.

Lemma HasSuffix_split (s suffix : string) :
  HasSuffix s suffix = true -> exists p, s = p ++ suffix.
Proof.
  unfold HasSuffix. intros H. apply andb_true_iff in H as [_ H].
  apply String.eqb_eq in H.
  destruct (drop_suffix (String.length s - String.length suffix) s) as [p Hp].
  exists p. now rewrite <- H.
Qed.

Lemma drop_append_length (p s : string) : drop (String.length p) (p ++ s) = s.
Proof. induction p as [|c p IH]; simpl; [reflexivity | assumption]. Qed.

Lemma HasSuffix_append (p suffix : string) : HasSuffix (p ++ suffix) suffix = true.
Proof.
  unfold HasSuffix. rewrite length_append. apply andb_true_iff. split.
  - apply Nat.leb_le. lia.
  - replace (String.length p + String.length suffix - String.length suffix)%nat
      with (String.length p) by lia.
    rewrite drop_append_length. apply String.eqb_refl.
Qed.

Lemma mapBytes_append_inv (f : ascii -> ascii) (s p q : string) :
  mapBytes f s = p ++ q ->
  exists s1 s2, s = s1 ++ s2 /\ mapBytes f s1 = p /\ mapBytes f s2 = q.
Proof.
  revert s. induction p as [|c p IH]; intros s H; simpl in H.
  - exists "", s. repeat split; assumption.
  - destruct s as [|x s]; simpl in H; [discriminate |].
    injection H as Hc H. destruct (IH s H) as (s1 & s2 & -> & H1 & H2).
    exists (String x s1), s2. simpl. rewrite Hc, H1. repeat split; assumption.
Qed.

Lemma final_append (a b : string) : b <> "" -> final (a ++ b) = final b.
Proof.
  intros Hb. induction a as [|x a IH]; simpl; [reflexivity |].
  rewrite <- IH. destruct (a ++ b) eqn:E; [| reflexivity].
  destruct a; simpl in E; [congruence | discriminate].
Qed.

Lemma final_mapBytes (f : ascii -> ascii) (s : string) :
  final (mapBytes f s) = option_map f (final s).
Proof.
  induction s as [|c s IH]; simpl; [reflexivity |].
  destruct s as [|d s]; simpl in *; [reflexivity | assumption].
Qed.

Lemma lowerByte_slash (c : ascii) :
  lowerByte c = "b"%char -> isSlash c = false.
Proof.
  intros H. destruct (isSlash c) eqn:E; [| reflexivity].
  apply isSlash_true in E. subst c. discriminate H.
Qed.

(** A name that passes the extension check does not end in a separator. *)
Lemma extension_final (filename : string) :
  HasSuffix (ToLower filename) ".epub" = true ->
  exists c, final filename = Some c /\ isSlash c = false.
Proof.
  intros H. apply HasSuffix_split in H as [p Hp].
  assert (Hf : final (ToLower filename) = Some "b"%char).
  { rewrite Hp, final_append by discriminate. reflexivity. }
  unfold ToLower in Hf. rewrite final_mapBytes in Hf.
  destruct (final filename) as [c|]; simpl in Hf; [| discriminate].
  exists c. split; [reflexivity |]. apply lowerByte_slash. congruence.
Qed.

End StringFacts.

(** ** Paths *)
Module PathFacts.
Import GoString filepath Props StringFacts.

Lemma stripTrailingSlashes_id (s : string) (c : ascii) :
  final s = Some c -> isSlash c = false -> stripTrailingSlashes s = s.
Proof.
  intros Hf Hc. induction s as [|x s IH]; [reflexivity |].
  destruct s as [|y s].
  - simpl in *. injection Hf as ->. now rewrite Hc.
  - specialize (IH Hf). change (stripTrailingSlashes (String x (String y s)))
      with (match stripTrailingSlashes (String y s) with
            | EmptyString => if isSlash x then EmptyString else String x EmptyString
            | r' => String x r'
            end).
    rewrite IH. reflexivity.
Qed.

(** [lastElement] yields an element without a separator: the path itself,
    or what follows a separator of the path. *)
Lemma lastElement_spec (s : string) :
  hasSlash (lastElement s) = false /\
  (s = lastElement s \/ exists d, s = d ++ String slash (lastElement s)).
Proof.
  induction s as [|c s [IHs IHd]]; [split; [reflexivity | now left] |].
  simpl. destruct (hasSlash s) eqn:Hs.
  - split; [assumption |]. right. destruct IHd as [E | [d E]].
    + rewrite <- E in IHs. congruence.
    + exists (String c d). simpl. now rewrite <- E.
  - destruct (isSlash c) eqn:Hc.
    + split; [assumption |]. right. exists "". simpl.
      now rewrite (isSlash_true c Hc).
    + split; [simpl; now rewrite Hc, Hs | now left].
Qed.

Lemma lastElement_nonempty (s : string) (c : ascii) :
  final s = Some c -> isSlash c = false -> lastElement s <> "".
Proof.
  intros Hf Hc E. destruct (lastElement_spec s) as [_ [H | [d H]]];
    rewrite E in H.
  - subst s. discriminate.
  - rewrite H, final_append in Hf by discriminate. simpl in Hf.
    injection Hf as <-. discriminate.
Qed.

Lemma lastElement_plain (s : string) : hasSlash s = false -> lastElement s = s.
Proof.
  destruct s as [|c s]; [reflexivity |]. simpl. intros H.
  apply orb_false_iff in H as [Hc Hs]. now rewrite Hs, Hc.
Qed.

(** The base name of a name that passes the extension check: its last
    element, which is not empty and has no separator. *)
Lemma Base_extension (filename : string) :
  HasSuffix (ToLower filename) ".epub" = true ->
  Base filename = lastElement filename /\
  hasSlash (Base filename) = false /\ Base filename <> "".
Proof.
  intros H. destruct (extension_final filename H) as (c & Hf & Hc).
  assert (HB : Base filename = lastElement filename).
  { unfold Base. destruct (String.eqb_spec filename "") as [-> | _];
      [discriminate |].
    rewrite (stripTrailingSlashes_id filename c Hf Hc).
    destruct (String.eqb_spec (lastElement filename) "") as [E | _];
      [| reflexivity].
    now apply (lastElement_nonempty filename c) in E. }
  rewrite HB. split; [reflexivity |]. split.
  - apply lastElement_spec.
  - now apply (lastElement_nonempty filename c).
Qed.

(** Whatever the name, its base is the root mark or has no separator and
    is not empty. *)
Lemma Base_cases (path : string) :
  Base path = "/" \/ (hasSlash (Base path) = false /\ Base path <> "").
Proof.
  unfold Base. destruct (String.eqb_spec path "") as [_ | _].
  - right. split; [reflexivity | discriminate].
  - destruct (String.eqb_spec (lastElement (stripTrailingSlashes path)) "")
      as [_ | Hne].
    + now left.
    + right. split; [apply lastElement_spec | assumption].
Qed.

Lemma splitSlash_nonempty (s : string) : splitSlash s <> [].
Proof.
  destruct s as [|c s]; simpl; [discriminate |].
  destruct (isSlash c); [discriminate |].
  destruct (splitSlash s); discriminate.
Qed.

Lemma splitSlash_plain (x : string) :
  hasSlash x = false -> splitSlash x = [x].
Proof.
  induction x as [|c x IH]; [reflexivity |]. simpl. intros H.
  apply orb_false_iff in H as [Hc Hx]. now rewrite Hc, (IH Hx).
Qed.

Lemma splitSlash_slash (x : string) :
  hasSlash x = false -> splitSlash (x ++ "/") = [x; ""].
Proof.
  induction x as [|c x IH]; [reflexivity |]. simpl. intros H.
  apply orb_false_iff in H as [Hc Hx]. now rewrite Hc, (IH Hx).
Qed.

Lemma cleanStep_keep (rooted : bool) (stack : list string) (e : string) :
  e <> "" -> e <> "." -> e <> ".." -> cleanStep rooted stack e = e :: stack.
Proof.
  intros H1 H2 H3. unfold cleanStep.
  destruct (String.eqb_spec e ""); [congruence |].
  destruct (String.eqb_spec e "."); [congruence |].
  destruct (String.eqb_spec e ".."); [congruence | reflexivity].
Qed.

(** Joining the upload root and one proper element puts the element
    directly under the root. *)
Lemma Join_under_root (name : string) :
  hasSlash name = false -> name <> "" -> name <> "." -> name <> ".." ->
  filepath.Join [main.UPLOAD_DIR; name] = main.UPLOAD_DIR ++ "/" ++ name.
Proof.
  intros Hs H1 H2 H3. unfold filepath.Join, main.UPLOAD_DIR. simpl.
  unfold Clean. simpl. rewrite (splitSlash_plain name Hs). simpl.
  rewrite (cleanStep_keep true _ name H1 H2 H3). simpl.
  reflexivity.
Qed.

(** The same when a separator follows the element. *)
Lemma Join_under_root_slash (name : string) :
  hasSlash name = false -> name <> "" -> name <> "." -> name <> ".." ->
  filepath.Join [main.UPLOAD_DIR; name ++ "/"] = main.UPLOAD_DIR ++ "/" ++ name.
Proof.
  intros Hs H1 H2 H3. unfold filepath.Join, main.UPLOAD_DIR. simpl.
  unfold Clean. simpl. rewrite (splitSlash_slash name Hs). simpl.
  rewrite (cleanStep_keep true _ name H1 H2 H3). simpl.
  reflexivity.
Qed.

End PathFacts.

(** ** Digits and the time stamp *)
Module StampFacts.
Import GoString strconv time Props StringFacts.

#[local] Arguments appendInt : simpl never.

Lemma digit_cases (k : Z) :
  (0 <= k <= 9)%Z ->
  k = 0%Z \/ k = 1%Z \/ k = 2%Z \/ k = 3%Z \/ k = 4%Z \/
  k = 5%Z \/ k = 6%Z \/ k = 7%Z \/ k = 8%Z \/ k = 9%Z.
Proof. lia. Qed.

Ltac by_digit k H :=
  destruct (digit_cases k H) as [-> | [-> | [-> | [-> | [-> |
    [-> | [-> | [-> | [-> | ->]]]]]]]]]; reflexivity.

Lemma utod_isDigit (k : Z) : (0 <= k <= 9)%Z -> isDigit (utod k) = true.
Proof. intros H. by_digit k H. Qed.

Lemma utod_notSlash (k : Z) : (0 <= k <= 9)%Z -> isSlash (utod k) = false.
Proof. intros H. by_digit k H. Qed.

Lemma utod_plain (k : Z) : (0 <= k <= 9)%Z -> json.plainByte (utod k) = true.
Proof. intros H. by_digit k H. Qed.

Lemma utod_value (k : Z) : (0 <= k <= 9)%Z -> json.digitValue (utod k) = k.
Proof. intros H. by_digit k H. Qed.

Lemma utod_zero (k : Z) :
  (1 <= k <= 9)%Z -> Ascii.eqb (utod k) "0" = false.
Proof.
  intros H. assert (H' : (0 <= k <= 9)%Z) by lia.
  destruct (digit_cases k H') as [-> | [-> | [-> | [-> | [-> |
    [-> | [-> | [-> | [-> | ->]]]]]]]]]; try reflexivity; lia.
Qed.

Lemma utod_inj (a b : Z) :
  (0 <= a <= 9)%Z -> (0 <= b <= 9)%Z -> utod a = utod b -> a = b.
Proof.
  intros Ha Hb H. unfold utod in H. apply (f_equal N_of_ascii) in H.
  rewrite !N_ascii_embedding in H by lia. lia.
Qed.

Lemma appendInt_2 (x : Z) :
  (0 <= x < 100)%Z ->
  appendInt x 2 = String (utod (x / 10)) (String (utod (x mod 10)) "").
Proof.
  intros H. unfold appendInt.
  replace (x <? 0)%Z with false by (symmetry; apply Z.ltb_ge; lia).
  rewrite Z.abs_eq by lia.
  replace (x <? 100)%Z with true by (symmetry; apply Z.ltb_lt; lia).
  reflexivity.
Qed.

Lemma appendInt_4 (x : Z) :
  (0 <= x < 10000)%Z ->
  appendInt x 4 =
  String (utod (x / 1000)) (String (utod (x / 100 mod 10))
    (String (utod (x / 10 mod 10)) (String (utod (x mod 10)) ""))).
Proof.
  intros H. unfold appendInt.
  replace (x <? 0)%Z with false by (symmetry; apply Z.ltb_ge; lia).
  rewrite Z.abs_eq by lia.
  replace (x <? 10000)%Z with true by (symmetry; apply Z.ltb_lt; lia).
  reflexivity.
Qed.

(** [YYYYMMDD_HHMMSS] written out. *)
Lemma Format_stamp (t : Time) :
  valid t ->
  Format t layout =
  String (utod (Year t / 1000)) (String (utod (Year t / 100 mod 10))
    (String (utod (Year t / 10 mod 10)) (String (utod (Year t mod 10))
      (String (utod (Month t / 10)) (String (utod (Month t mod 10))
        (String (utod (Day t / 10)) (String (utod (Day t mod 10))
          (String "_"
            (String (utod (Hour t / 10)) (String (utod (Hour t mod 10))
              (String (utod (Minute t / 10)) (String (utod (Minute t mod 10))
                (String (utod (Second t / 10))
                  (String (utod (Second t mod 10)) "")))))))))))))).
Proof.
  intros (Hy & Hm & Hd & Hh & Hi & Hs).
  unfold Format, layout. simpl.
  rewrite appendInt_4 by lia. rewrite !appendInt_2 by lia.
  reflexivity.
Qed.

Lemma stamp_digits_bounded (t : Time) :
  valid t -> Forall (fun k => (0 <= k <= 9)%Z) (stampDigits t).
Proof.
  intros (Hy & Hm & Hd & Hh & Hi & Hs). unfold stampDigits.
  repeat constructor; Z.div_mod_to_equations; lia.
Qed.

Ltac stamp_bounds t Hv :=
  let H := fresh "Hb" in
  pose proof (stamp_digits_bounded t Hv) as H; unfold stampDigits in H;
  repeat match type of H with
         | Forall _ (_ :: _) =>
             let H1 := fresh "Hd" in
             apply Forall_cons_1 in H; destruct H as [H1 H]
         end; clear H.

Lemma Format_length (t : Time) :
  valid t -> String.length (Format t layout) = 15%nat.
Proof. intros Hv. now rewrite (Format_stamp t Hv). Qed.

Lemma Format_noSlash (t : Time) : valid t -> hasSlash (Format t layout) = false.
Proof.
  intros Hv. rewrite (Format_stamp t Hv). stamp_bounds t Hv. simpl.
  rewrite !utod_notSlash by assumption. reflexivity.
Qed.

Lemma Format_plain (t : Time) : valid t -> json.plain (Format t layout) = true.
Proof.
  intros Hv. rewrite (Format_stamp t Hv). stamp_bounds t Hv. simpl.
  rewrite !utod_plain by assumption. reflexivity.
Qed.

(** A stamp followed by an underscore and the original name has the shape
    [\d{8}_\d{6}_<original>]. *)
Lemma Format_stamped (t : Time) (original : string) :
  valid t -> stamped original (Format t layout ++ "_" ++ original) = true.
Proof.
  intros Hv. rewrite (Format_stamp t Hv). stamp_bounds t Hv.
  unfold stamped. simpl. rewrite !utod_isDigit by assumption. simpl.
  apply String.eqb_refl.
Qed.

(** Two calendar dates with one stamp are one date. *)
Lemma Format_inj (t1 t2 : Time) :
  valid t1 -> valid t2 -> Format t1 layout = Format t2 layout -> t1 = t2.
Proof.
  intros Hv1 Hv2 H. rewrite (Format_stamp t1 Hv1), (Format_stamp t2 Hv2) in H.
  stamp_bounds t1 Hv1. stamp_bounds t2 Hv2.
  injection H as E1 E2 E3 E4 E5 E6 E7 E8 E9 E10 E11 E12 E13 E14.
  apply utod_inj in E1, E2, E3, E4, E5, E6, E7, E8, E9, E10, E11, E12, E13, E14;
    try assumption.
  destruct t1 as [y1 m1 d1 h1 i1 s1], t2 as [y2 m2 d2 h2 i2 s2].
  simpl in *.
  assert (y1 = y2) by (Z.div_mod_to_equations; lia).
  assert (m1 = m2) by (Z.div_mod_to_equations; lia).
  assert (d1 = d2) by (Z.div_mod_to_equations; lia).
  assert (h1 = h2) by (Z.div_mod_to_equations; lia).
  assert (i1 = i2) by (Z.div_mod_to_equations; lia).
  assert (s1 = s2) by (Z.div_mod_to_equations; lia).
  congruence.
Qed.

End StampFacts.

(** ** Reading the success body back *)
Module JsonFacts.
Import GoString strconv fmt json main Props StringFacts StampFacts.

Lemma plain_append (a b : string) : plain (a ++ b) = plain a && plain b.
Proof.
  induction a as [|c a IH]; simpl; [reflexivity |].
  now rewrite IH, andb_assoc.
Qed.

(** Inside a string the plain bytes are taken as they are. *)
Lemma scan_plain (x s acc : string) (out : list token) :
  plain x = true ->
  scan (InString acc) (x ++ s) out = scan (InString (acc ++ x)) s out.
Proof.
  revert acc. induction x as [|c x IH]; intros acc Hp.
  - now rewrite append_nil_r.
  - simpl in Hp. apply andb_true_iff in Hp as [Hc Hx].
    assert (Hq : isQuote c = false /\ isBackslash c = false).
    { unfold plainByte in Hc. apply andb_true_iff in Hc as [Hc _].
      apply andb_true_iff in Hc as [H1 H2].
      split; now apply negb_true_iff. }
    destruct Hq as [Hq Hb]. simpl. rewrite Hq, Hb, Hc.
    rewrite app_nil_r, (IH _ Hx), append_assoc. reflexivity.
Qed.

Lemma utoa_append (fuel : nat) (u : Z) (acc s : string) :
  utoa fuel u acc ++ s = utoa fuel u (acc ++ s).
Proof.
  revert u acc. induction fuel as [|fuel IH]; intros u acc; simpl;
    [reflexivity |].
  destruct (u <? 10)%Z; [reflexivity | apply IH].
Qed.

Lemma idleStep_digit (k : Z) :
  (1 <= k <= 9)%Z -> idleStep (utod k) = Some (Digits false k, []).
Proof.
  intros H. assert (H' : (0 <= k <= 9)%Z) by lia.
  destruct (digit_cases k H') as [-> | [-> | [-> | [-> | [-> |
    [-> | [-> | [-> | [-> | ->]]]]]]]]]; try reflexivity; lia.
Qed.

(** The digits [utoa] writes are read back as the number written. *)
Lemma scan_utoa (fuel : nat) (u : Z) (rest : string) (out : list token) :
  (0 < u < 10 ^ Z.of_nat fuel)%Z ->
  scan Idle (utoa fuel u rest) out = scan (Digits false u) rest out.
Proof.
  revert u rest. induction fuel as [|fuel IH]; intros u rest Hu.
  - simpl in Hu. lia.
  - rewrite Nat2Z.inj_succ, Z.pow_succ_r in Hu by lia. simpl.
    destruct (Z.ltb_spec u 10) as [Hlt | Hge].
    + rewrite Z.mod_small by lia. simpl.
      rewrite idleStep_digit by lia. now rewrite app_nil_r.
    + rewrite IH by (Z.div_mod_to_equations; lia). simpl.
      rewrite utod_isDigit, utod_value by (Z.div_mod_to_equations; lia).
      rewrite app_nil_r. f_equal. f_equal. Z.div_mod_to_equations; lia.
Qed.

Lemma digitFuel_enough (u : Z) : (0 < u)%Z -> (u < 10 ^ Z.of_nat (digitFuel u))%Z.
Proof.
  intros Hu. unfold digitFuel.
  pose proof (Z.log2_nonneg u) as Hl.
  rewrite Nat2Z.inj_succ, Z2Nat.id by assumption.
  destruct (Z.log2_spec u Hu) as [_ Hlt].
  eapply Z.lt_le_trans; [exact Hlt |].
  apply Z.pow_le_mono_l. lia.
Qed.

(** A size is read back after its decimal form, whatever follows it. *)
Lemma scan_FormatInt (n : Z) (rest : string) (out : list token) :
  (0 <= n)%Z ->
  scan Idle (FormatInt n ++ rest) out =
  scan (if (n =? 0)%Z then Zero false else Digits false n) rest out.
Proof.
  intros Hn. unfold FormatInt.
  replace (n <? 0)%Z with false by (symmetry; apply Z.ltb_ge; lia).
  unfold FormatUint. rewrite utoa_append. change ("" ++ rest) with rest.
  destruct (Z.eqb_spec n 0) as [-> | Hne].
  - simpl. now rewrite app_nil_r.
  - apply scan_utoa. split; [lia | apply digitFuel_enough; lia].
Qed.

Lemma Sprintf_stamp (a b : string) :
  Sprintf "%s_%s" [Str a; Str b] = a ++ "_" ++ b.
Proof. unfold Sprintf. simpl. now rewrite append_nil_r. Qed.

(** The success body written out. *)
Lemma Sprintf_success (name : string) (n : Z) :
  Sprintf successFormat [Str name; Int n] =
  ("{" ++ quote ++ "status" ++ quote ++ ": " ++ quote ++ "success" ++ quote
   ++ ", " ++ quote ++ "filename" ++ quote ++ ": " ++ quote)
  ++ name ++ (quote ++ ", " ++ quote ++ "size" ++ quote ++ ": ")
  ++ FormatInt n ++ "}".
Proof.
  unfold Sprintf, successFormat. simpl. reflexivity.
Qed.

(** A success body with a name of plain bytes denotes the object of the
    interface: the status, the name and the size. *)
Lemma success_body_reads (name : string) (n : Z) :
  plain name = true -> (0 <= n)%Z ->
  readObject (Sprintf successFormat [Str name; Int n]) =
  Some (successObject name n).
Proof.
  intros Hp Hn. rewrite Sprintf_success. unfold readObject. simpl.
  rewrite (scan_plain name _ "" _ Hp). simpl.
  rewrite (scan_FormatInt n "}" _ Hn).
  destruct (n =? 0)%Z eqn:E; simpl.
  - apply Z.eqb_eq in E. now subst n.
  - reflexivity.
Qed.

End JsonFacts.

(** ** The stamp of any clock and the extension check *)
Module NameFacts.
Import GoString strconv time fmt json main Props.
Import StringFacts PathFacts StampFacts JsonFacts.

#[local] Arguments appendInt : simpl never.

Lemma tame_append (a b : string) : tame a -> tame b -> tame (a ++ b).
Proof.
  intros [Ha1 Ha2] [Hb1 Hb2]. split.
  - now rewrite hasSlash_append, Ha1, Hb1.
  - now rewrite plain_append, Ha2, Hb2.
Qed.

Lemma tame_cons_digit (k : Z) (s : string) :
  (0 <= k <= 9)%Z -> tame s -> tame (String (utod k) s).
Proof.
  intros Hk [H1 H2]. split; simpl.
  - now rewrite utod_notSlash, H1.
  - now rewrite utod_plain, H2.
Qed.

Lemma tame_cons (c : ascii) (s : string) :
  isSlash c = false -> plainByte c = true -> tame s -> tame (String c s).
Proof.
  intros Hc Hp [H1 H2]. split; simpl.
  - now rewrite Hc, H1.
  - now rewrite Hp, H2.
Qed.

Lemma tame_utoa (fuel : nat) (u : Z) (acc : string) :
  tame acc -> tame (utoa fuel u acc).
Proof.
  revert u acc. induction fuel as [|fuel IH]; intros u acc Hacc; simpl;
    [assumption |].
  assert (Hd : tame (String (utod (u mod 10)) acc)).
  { apply tame_cons_digit; [| assumption].
    pose proof (Z.mod_pos_bound u 10). lia. }
  destruct (u <? 10)%Z; [assumption | now apply IH].
Qed.

Lemma tame_zeros (n : nat) : tame (zeros n).
Proof.
  induction n as [|n [IH1 IH2]]; [split; reflexivity |].
  split; simpl; assumption.
Qed.

Lemma tame_appendInt (x : Z) (width : nat) : tame (appendInt x width).
Proof.
  unfold appendInt.
  assert (Hs : tame (if (x <? 0)%Z then "-" else "")).
  { destruct (x <? 0)%Z; split; reflexivity. }
  assert (Hnil : tame "") by (split; reflexivity).
  pose proof (Z.abs_nonneg x) as Hu.
  destruct (Nat.eqb width 2 && (Z.abs x <? 100)%Z) eqn:E2.
  - apply andb_true_iff in E2 as [_ E2]. apply Z.ltb_lt in E2.
    apply tame_append; [assumption |].
    repeat apply tame_cons_digit; try assumption;
      Z.div_mod_to_equations; lia.
  - destruct (Nat.eqb width 4 && (Z.abs x <? 10000)%Z) eqn:E4.
    + apply andb_true_iff in E4 as [_ E4]. apply Z.ltb_lt in E4.
      apply tame_append; [assumption |].
      repeat apply tame_cons_digit; try assumption;
        Z.div_mod_to_equations; lia.
    + repeat apply tame_append; try assumption.
      * apply tame_zeros.
      * now apply tame_utoa.
Qed.

(** The stamp of any clock has no separator and only plain bytes. *)
Lemma tame_Format (t : Time) : tame (Format t layout).
Proof.
  unfold Format, layout. simpl.
  do 3 (apply tame_append; [apply tame_appendInt |]).
  apply tame_cons; [reflexivity | reflexivity |].
  do 3 (apply tame_append; [apply tame_appendInt |]).
  split; reflexivity.
Qed.

(** A text with an underscore in it is no dot element. *)
Lemma underscore_proper (x y : string) :
  let s := x ++ String "_" y in s <> "" /\ s <> "." /\ s <> "..".
Proof.
  destruct x as [|a [|b [|c x]]]; simpl; repeat split; intros H;
    try discriminate H; injection H; intros; discriminate.
Qed.

Lemma safeFilename_eq (t : Time) (filename : string) :
  safeFilename t filename = Format t layout ++ "_" ++ filepath.Base filename.
Proof. unfold safeFilename. apply Sprintf_stamp. Qed.

Lemma lowerByte_cases (c : ascii) :
  (lowerByte c = "." -> c = ".")%char /\
  (lowerByte c = "e" -> c = "e" \/ c = "E")%char /\
  (lowerByte c = "p" -> c = "p" \/ c = "P")%char /\
  (lowerByte c = "u" -> c = "u" \/ c = "U")%char /\
  (lowerByte c = "b" -> c = "b" \/ c = "B")%char.
Proof.
  destruct c as [[] [] [] [] [] [] [] []]; vm_compute;
    repeat split; intros H; try discriminate H; auto.
Qed.

Lemma ToLower_append (a b : string) : ToLower (a ++ b) = ToLower a ++ ToLower b.
Proof.
  unfold ToLower. induction a as [|c a IH]; simpl; [reflexivity |].
  now rewrite IH.
Qed.

(** The test of the handler is the comparison of the last five bytes with
    [.epub], the case of the letters set aside. *)
Lemma extension_check_spec (filename : string) :
  HasSuffix (ToLower filename) ".epub" = true <-> endsInEpub filename.
Proof.
  split.
  - intros H. apply HasSuffix_split in H as [p Hp].
    apply mapBytes_append_inv in Hp as (s1 & s2 & -> & _ & H2).
    destruct s2 as [|c0 [|c1 [|c2 [|c3 [|c4 [|c5 s2]]]]]]; simpl in H2;
      try discriminate H2.
    injection H2 as H0 H1 H2 H3 H4.
    exists s1, c1, c2, c3, c4.
    apply (proj1 (lowerByte_cases c0)) in H0. subst c0.
    split; [reflexivity |].
    apply (proj1 (proj2 (lowerByte_cases c1))) in H1.
    apply (proj1 (proj2 (proj2 (lowerByte_cases c2)))) in H2.
    apply (proj1 (proj2 (proj2 (proj2 (lowerByte_cases c3))))) in H3.
    apply (proj2 (proj2 (proj2 (proj2 (lowerByte_cases c4))))) in H4.
    repeat split; assumption.
  - intros (p & c1 & c2 & c3 & c4 & -> & H1 & H2 & H3 & H4).
    rewrite ToLower_append.
    replace (ToLower (String "." (String c1 (String c2 (String c3 (String c4 ""))))))
      with ".epub".
    + apply HasSuffix_append.
    + destruct H1 as [-> | ->], H2 as [-> | ->], H3 as [-> | ->],
        H4 as [-> | ->]; reflexivity.
Qed.

End NameFacts.

(** ** The paths through the handler *)
Module HandlerFacts.
Import GoString os io http main Props.
Import StringFacts PathFacts StampFacts JsonFacts NameFacts.


Lemma parse_within (b : Body) :
  (wireLen b <= MAX_FILE_SIZE)%Z ->
  ParseMultipartForm (MaxBytesReader b MAX_FILE_SIZE) = (wireLen b, decoded b).
Proof.
  intros H. unfold ParseMultipartForm, MaxBytesReader. cbn [limit underlying].
  now replace (MAX_FILE_SIZE <? wireLen b)%Z with false
    by (symmetry; apply Z.ltb_ge; lia).
Qed.

Lemma parse_beyond (b : Body) :
  (MAX_FILE_SIZE < wireLen b)%Z ->
  ParseMultipartForm (MaxBytesReader b MAX_FILE_SIZE) = (MAX_FILE_SIZE, None).
Proof.
  intros H. unfold ParseMultipartForm, MaxBytesReader. cbn [limit underlying].
  now replace (MAX_FILE_SIZE <? wireLen b)%Z with true
    by (symmetry; apply Z.ltb_lt; lia).
Qed.

(** A request that carries a file passes the gate and the decoder. *)
Ltac pass_gate Hc :=
  let Hm := fresh "Hm" in let Hk := fresh "Hk" in let Hw := fresh "Hw" in
  let form := fresh "form" in let rest := fresh "rest" in
  let Hd := fresh "Hd" in let Hf := fresh "Hf" in
  destruct Hc as (Hm & Hk & Hw & form & rest & Hd & Hf);
  unfold uploadHandler;
  rewrite Hm, Hk, !String.eqb_refl, (parse_within _ Hw), Hd;
  unfold FormFile; rewrite Hf;
  cbv beta iota zeta delta [negb].

(** A name that fails the extension check: the fifth exit. *)
Lemma upload_refused (env : Env) (fs : FS) (r : Request) (apiKey : string)
    (fh : FileHeader) :
  carries r apiKey fh ->
  HasSuffix (ToLower (Filename fh)) ".epub" = false ->
  uploadHandler env fs r apiKey =
  {| response := Error "File must be an EPUB" StatusBadRequest;
     files := fs; logged := []; bodyRead := wireLen (body r) |}.
Proof. intros Hc He. pass_gate Hc. now rewrite He. Qed.

(** The run to the end of the handler. *)
Lemma upload_stored (env : Env) (fs : FS) (r : Request) (apiKey : string)
    (fh : FileHeader) :
  carries r apiKey fh ->
  HasSuffix (ToLower (Filename fh)) ".epub" = true ->
  storageSound env ->
  let name := safeFilename (now env) (Filename fh) in
  let size := Z.of_nat (length (content fh)) in
  uploadHandler env fs r apiKey =
  {| response :=
       {| Header := <["Content-Type" := "application/json"]> ∅;
          StatusCode := StatusOK;
          Payload := fmt.Sprintf successFormat [fmt.Str name; fmt.Int size] |};
     files := <[destPath (now env) (Filename fh) := content fh]> fs;
     logged := [fmt.Sprintf "Successfully uploaded EPUB: %s (%d bytes)"
                  [fmt.Str name; fmt.Int size]];
     bodyRead := wireLen (body r) |}.
Proof.
  intros Hc He [Hcr Hwr]. pass_gate Hc. rewrite He.
  unfold os.Create, io.Copy. rewrite Hcr, Hwr.
  cbv beta iota zeta delta [negb].
  fold layout. fold (safeFilename (now env) (Filename fh)).
  fold (destPath (now env) (Filename fh)).
  now rewrite insert_insert_eq.
Qed.

(** The write fails: the partial file is handed to [os.Remove]. *)
Lemma upload_copy_failed (env : Env) (fs : FS) (r : Request)
    (apiKey : string) (fh : FileHeader) (n : nat) (e : string) :
  carries r apiKey fh ->
  HasSuffix (ToLower (Filename fh)) ".epub" = true ->
  createErr (faults env) = None ->
  writeErr (faults env) = Some (n, e) ->
  let dest := destPath (now env) (Filename fh) in
  uploadHandler env fs r apiKey =
  {| response := Error "Failed to save file" StatusInternalServerError;
     files := fst (os.Remove (faults env)
                     (<[dest := take n (content fh)]> fs) dest);
     logged := [fmt.Sprintf "Failed to copy file: %v" [fmt.Str e]];
     bodyRead := wireLen (body r) |}.
Proof.
  intros Hc He Hcr Hwr. pass_gate Hc. rewrite He.
  unfold os.Create, io.Copy. rewrite Hcr, Hwr.
  cbv beta iota zeta delta [negb].
  fold layout. fold (safeFilename (now env) (Filename fh)).
  fold (destPath (now env) (Filename fh)).
  now rewrite insert_insert_eq.
Qed.

(** A 200 is the mark of the run to the end. *)
Lemma upload_ok_inv (env : Env) (fs : FS) (r : Request) (apiKey : string)
    (fh : FileHeader) :
  carries r apiKey fh ->
  StatusCode (response (uploadHandler env fs r apiKey)) = StatusOK ->
  HasSuffix (ToLower (Filename fh)) ".epub" = true /\ storageSound env.
Proof.
  intros Hc H.
  destruct (HasSuffix (ToLower (Filename fh)) ".epub") eqn:He.
  - split; [reflexivity |].
    destruct (createErr (faults env)) as [e|] eqn:Hcr.
    + exfalso. revert H. pass_gate Hc. rewrite He. unfold os.Create.
      rewrite Hcr. discriminate.
    + destruct (writeErr (faults env)) as [[n e]|] eqn:Hwr.
      * rewrite (upload_copy_failed env fs r apiKey fh n e Hc He Hcr Hwr) in H.
        discriminate H.
      * split; assumption.
  - rewrite (upload_refused env fs r apiKey fh Hc He) in H. discriminate H.
Qed.

(** The path of a name that passes the check: the root, a separator, the
    stamp, an underscore and the base name. *)
Lemma destPath_checked (t : time.Time) (filename : string) :
  HasSuffix (ToLower filename) ".epub" = true ->
  destPath t filename =
  UPLOAD_DIR ++ "/" ++ time.Format t layout ++ "_" ++ filepath.Base filename.
Proof.
  intros He. destruct (Base_extension filename He) as (_ & Hs & Hne).
  unfold destPath. rewrite safeFilename_eq.
  destruct (underscore_proper (time.Format t layout) (filepath.Base filename))
    as (P1 & P2 & P3).
  apply Join_under_root; try assumption.
  rewrite hasSlash_append. destruct (tame_Format t) as [-> _]. simpl.
  exact Hs.
Qed.

End HandlerFacts.

(** ** The upload pipeline *)
Module Pipeline.
Import GoString os io http main json Props.
Import StringFacts PathFacts StampFacts JsonFacts NameFacts HandlerFacts.

(** Whatever the declared name and the clock, the derived path is a file
    directly under the upload root. *)
Lemma destPath_insideRoot (t : time.Time) (filename : string) :
  insideRoot (destPath t filename).
Proof.
  unfold insideRoot, destPath. rewrite safeFilename_eq.
  destruct (tame_Format t) as [Hts _].
  destruct (Base_cases filename) as [E | [Hs Hne]].
  - rewrite E. exists (time.Format t layout ++ "_").
    destruct (underscore_proper (time.Format t layout) "") as (P1 & P2 & P3).
    assert (Hn : hasSlash (time.Format t layout ++ "_") = false)
      by now rewrite hasSlash_append, Hts.
    repeat split; try assumption.
    replace (time.Format t layout ++ "_" ++ "/")
      with ((time.Format t layout ++ "_") ++ "/")
      by now rewrite append_assoc.
    now apply Join_under_root_slash.
  - exists (time.Format t layout ++ "_" ++ filepath.Base filename).
    destruct (underscore_proper (time.Format t layout) (filepath.Base filename))
      as (P1 & P2 & P3).
    assert (Hn : hasSlash (time.Format t layout ++ "_" ++ filepath.Base filename)
                 = false)
      by (rewrite hasSlash_append, Hts; simpl; exact Hs).
    repeat split; try assumption.
    now apply Join_under_root.
Qed.

(** C1: a valid POST with the key, the field [epub], the declared name
    [book.epub] and a content of S bytes is answered 200; the body reports
    a name of the shape [\d{8}_\d{6}_book.epub] and the size S, and the
    file at that name under the upload root holds the bytes uploaded. *)
Theorem valid_upload_is_stored (env : Env) (fs : FS) (r : Request)
    (apiKey : string) (fh : FileHeader) :
  carries r apiKey fh ->
  Filename fh = "book.epub" ->
  storageSound env ->
  time.valid (now env) ->
  let o := uploadHandler env fs r apiKey in
  let S := Z.of_nat (length (content fh)) in
  exists name,
    StatusCode (response o) = StatusOK /\
    readObject (Payload (response o)) = Some (successObject name S) /\
    stamped "book.epub" name = true /\
    hasSlash name = false /\
    destPath (now env) (Filename fh) = UPLOAD_DIR ++ "/" ++ name /\
    files o !! (UPLOAD_DIR ++ "/" ++ name) = Some (content fh).
Proof.
  intros Hc Hn Hst Hv o S.
  assert (He : HasSuffix (ToLower (Filename fh)) ".epub" = true)
    by now rewrite Hn.
  exists (time.Format (now env) layout ++ "_book.epub").
  assert (Hname : safeFilename (now env) (Filename fh)
                  = time.Format (now env) layout ++ "_book.epub")
    by now rewrite safeFilename_eq, Hn.
  assert (Hpath : destPath (now env) (Filename fh)
                  = UPLOAD_DIR ++ "/" ++ time.Format (now env) layout
                    ++ "_book.epub")
    by now rewrite (destPath_checked _ _ He), Hn.
  subst o. rewrite (upload_stored env fs r apiKey fh Hc He Hst).
  cbn [response files StatusCode Payload]. rewrite Hname, Hpath.
  destruct (tame_Format (now env)) as [Hs Hp].
  repeat split.
  - apply success_body_reads; [| lia].
    now rewrite plain_append, Hp.
  - now apply (Format_stamped (now env) "book.epub").
  - now rewrite hasSlash_append, Hs.
  - apply lookup_insert_eq.
Qed.

(** C2: when the copy fails after any number of bytes the answer is 500,
    whether the removal of the partial file succeeds or fails; when the
    removal succeeds nothing is left at the destination path. *)
Theorem failed_copy_is_cleaned_up (env : Env) (fs : FS) (r : Request)
    (apiKey : string) (fh : FileHeader) (n : nat) (e : string) :
  carries r apiKey fh ->
  HasSuffix (ToLower (Filename fh)) ".epub" = true ->
  createErr (faults env) = None ->
  writeErr (faults env) = Some (n, e) ->
  let o := uploadHandler env fs r apiKey in
  response o = Error "Failed to save file" StatusInternalServerError /\
  StatusCode (response o) = 500%Z /\
  (removeErr (faults env) = None ->
   files o !! destPath (now env) (Filename fh) = None).
Proof.
  intros Hc He Hcr Hwr o. subst o.
  rewrite (upload_copy_failed env fs r apiKey fh n e Hc He Hcr Hwr).
  cbn [response files]. repeat split.
  intros Hrm. unfold os.Remove. rewrite Hrm, lookup_insert_eq.
  cbn [fst]. apply lookup_delete_eq.
Qed.

(** C3: the server [main] starts has a key that is not empty; a POST to
    /upload whose query has no [api_key], or another one, is answered 401,
    without a byte of the body read, whatever the body is, and without a
    file created. *)
Theorem wrong_key_is_unauthorized (environ : gmap string string)
    (mkdirOk : bool) (s : Server) (env : Env) (fs : FS) (r : Request) :
  main environ mkdirOk = Some s ->
  Path r = "/upload" ->
  Method r = MethodPost ->
  Query r !! "api_key" = None \/ Get (Query r) "api_key" <> serverKey s ->
  let o := serve s env fs r in
  serverKey s <> "" /\
  StatusCode (response o) = 401%Z /\
  bodyRead o = 0%Z /\
  files o = fs /\
  forall b : Body, serve s env fs (withBody r b) = o.
Proof.
  intros Hmain Hp Hm Hq o.
  assert (Hkey : serverKey s <> "").
  { unfold main in Hmain.
    destruct (String.eqb_spec (Getenv environ "API_KEY") "") as [_ | Hne];
      [discriminate |].
    destruct mkdirOk; [| discriminate]. cbn [negb] in Hmain.
    injection Hmain as <-. exact Hne. }
  assert (Hbad : String.eqb (Get (Query r) "api_key") (serverKey s) = false).
  { apply String.eqb_neq. destruct Hq as [Hnone | Hne]; [| exact Hne].
    unfold Get. rewrite Hnone. congruence. }
  assert (Ho : forall b, serve s env fs (withBody r b) =
               {| response := Error "Invalid API key" StatusUnauthorized;
                  files := fs; logged := []; bodyRead := 0 |}).
  { intros b. unfold serve, uploadHandlerWithKey, uploadHandler, withBody.
    cbn [Path Method Query]. rewrite Hp, Hm, Hbad. reflexivity. }
  assert (Eo : o = {| response := Error "Invalid API key" StatusUnauthorized;
                      files := fs; logged := []; bodyRead := 0 |}).
  { subst o. rewrite <- (Ho (body r)). now destruct r. }
  split; [exact Hkey |]. rewrite Eo. repeat split. exact Ho.
Qed.


(** C5: an authenticated POST whose declared name does not end in
    [.epub], the case of the letters set aside, is answered 400 whatever
    the content of the file, and no file is created. *)
Theorem wrong_extension_is_rejected (env : Env) (fs : FS) (r : Request)
    (apiKey : string) (fh : FileHeader) :
  carries r apiKey fh ->
  ~ endsInEpub (Filename fh) ->
  let o := uploadHandler env fs r apiKey in
  StatusCode (response o) = 400%Z /\ files o = fs.
Proof.
  intros Hc Hn o. subst o.
  assert (He : HasSuffix (ToLower (Filename fh)) ".epub" = false).
  { destruct (HasSuffix (ToLower (Filename fh)) ".epub") eqn:E;
      [| reflexivity].
    exfalso. apply Hn. now apply extension_check_spec. }
  rewrite (upload_refused env fs r apiKey fh Hc He). split; reflexivity.
Qed.

(** C6: the path derived from a declared name is a file directly under
    the upload root; for a name that passes the extension check the file
    is named by the stamp, an underscore and the base name, which is the
    declared name without its directories. *)
Theorem derived_path_stays_inside_root (t : time.Time) (filename : string) :
  insideRoot (destPath t filename) /\
  (HasSuffix (ToLower filename) ".epub" = true ->
   destPath t filename = UPLOAD_DIR ++ "/" ++ safeFilename t filename /\
   safeFilename t filename
     = time.Format t layout ++ "_" ++ filepath.Base filename /\
   hasSlash (filepath.Base filename) = false /\
   (filename = filepath.Base filename \/
    exists d, filename = d ++ "/" ++ filepath.Base filename)).
Proof.
  split; [apply destPath_insideRoot |]. intros He.
  destruct (Base_extension filename He) as (HB & Hs & _).
  rewrite (destPath_checked t filename He), safeFilename_eq.
  repeat split; try assumption.
  rewrite HB. apply lastElement_spec.
Qed.

(** C7: a request whose method is not POST is answered 405; no file is
    created, no byte of the body is read, and neither the key of the
    server nor what the request carries besides its method matters. *)
Theorem other_methods_are_refused (env : Env) (fs : FS) (r : Request)
    (apiKey : string) :
  Method r <> MethodPost ->
  let o := uploadHandler env fs r apiKey in
  StatusCode (response o) = 405%Z /\
  files o = fs /\
  bodyRead o = 0%Z /\
  forall (r' : Request) (apiKey' : string),
    Method r' = Method r -> uploadHandler env fs r' apiKey' = o.
Proof.
  intros Hm o.
  assert (Ho : forall r' k, Method r' = Method r ->
               uploadHandler env fs r' k =
               {| response := Error "Method not allowed" StatusMethodNotAllowed;
                  files := fs; logged := []; bodyRead := 0 |}).
  { intros r' k E. unfold uploadHandler. rewrite E.
    apply String.eqb_neq in Hm. now rewrite Hm. }
  subst o. rewrite (Ho r apiKey eq_refl). repeat split.
  intros r' k E. now apply Ho.
Qed.

(** C8, at a declared name with a double quote in it: the name passes
    the extension check and the upload is answered 200 with the content
    type of JSON, and the body, in which the quote is written as it is,
    is not a JSON object. *)
Theorem quoted_name_breaks_the_body :
  let r := Sample.request "POST" "k" Sample.quotedName 300 in
  let o := uploadHandler (Sample.env Sample.clock noFaults) ∅ r "k" in
  HasSuffix (ToLower Sample.quotedName) ".epub" = true /\
  StatusCode (response o) = StatusOK /\
  Header (response o) !! "Content-Type" = Some "application/json" /\
  Payload (response o) =
    fmt.Sprintf successFormat
      [fmt.Str ("20240309_070559_a" ++ quote ++ "b.epub"); fmt.Int 4] /\
  readObject (Payload (response o)) = None.
Proof. vm_compute. repeat split. Qed.

(** C9: two uploads of one content that both succeed, the second after
    the first, at clocks that differ in some field down to the second:
    the two names differ, so do the two paths, and afterwards each path
    holds the content. *)
Theorem two_uploads_two_artifacts (env1 env2 : Env) (fs : FS)
    (r1 r2 : Request) (apiKey : string) (fh1 fh2 : FileHeader) :
  carries r1 apiKey fh1 ->
  carries r2 apiKey fh2 ->
  content fh1 = content fh2 ->
  time.valid (now env1) ->
  time.valid (now env2) ->
  now env1 <> now env2 ->
  let o1 := uploadHandler env1 fs r1 apiKey in
  let o2 := uploadHandler env2 (files o1) r2 apiKey in
  StatusCode (response o1) = StatusOK ->
  StatusCode (response o2) = StatusOK ->
  let name1 := safeFilename (now env1) (Filename fh1) in
  let name2 := safeFilename (now env2) (Filename fh2) in
  let path1 := destPath (now env1) (Filename fh1) in
  let path2 := destPath (now env2) (Filename fh2) in
  name1 <> name2 /\
  path1 = UPLOAD_DIR ++ "/" ++ name1 /\
  path2 = UPLOAD_DIR ++ "/" ++ name2 /\
  path1 <> path2 /\
  files o2 !! path1 = Some (content fh1) /\
  files o2 !! path2 = Some (content fh1).
Proof.
  intros Hc1 Hc2 Hsame Hv1 Hv2 Hclock o1 o2 Hok1 Hok2 name1 name2 path1 path2.
  destruct (upload_ok_inv env1 fs r1 apiKey fh1 Hc1 Hok1) as [He1 Hst1].
  destruct (upload_ok_inv env2 (files o1) r2 apiKey fh2 Hc2 Hok2)
    as [He2 Hst2].
  assert (Hnames : name1 <> name2).
  { subst name1 name2. rewrite !safeFilename_eq. intros E.
    apply append_inj_length in E as [E _];
      [| now rewrite !Format_length].
    now apply Hclock, Format_inj. }
  assert (Hp1 : path1 = UPLOAD_DIR ++ "/" ++ name1).
  { subst path1 name1.
    now rewrite (destPath_checked _ _ He1), safeFilename_eq. }
  assert (Hp2 : path2 = UPLOAD_DIR ++ "/" ++ name2).
  { subst path2 name2.
    now rewrite (destPath_checked _ _ He2), safeFilename_eq. }
  assert (Hpaths : path1 <> path2).
  { rewrite Hp1, Hp2. intros E. apply Hnames.
    change (UPLOAD_DIR ++ "/" ++ name1) with ((UPLOAD_DIR ++ "/") ++ name1) in E.
    change (UPLOAD_DIR ++ "/" ++ name2) with ((UPLOAD_DIR ++ "/") ++ name2) in E.
    now apply append_inj_length in E as [_ E]. }
  assert (Hf2 : files o2 = <[path2 := content fh2]> (<[path1 := content fh1]> fs)).
  { subst o2 o1.
    rewrite (upload_stored env1 fs r1 apiKey fh1 Hc1 He1 Hst1).
    cbn [files].
    now rewrite (upload_stored env2 _ r2 apiKey fh2 Hc2 He2 Hst2). }
  repeat split; try assumption.
  - rewrite Hf2, lookup_insert_ne by congruence. apply lookup_insert_eq.
  - rewrite Hf2, Hsame. apply lookup_insert_eq.
Qed.

(** C10: a valid POST whose declared name is [.epub] alone passes the
    extension check and is answered 200; the file is stored under the
    stamp followed by [_.epub], the name the body reports. *)
Theorem bare_extension_is_accepted (env : Env) (fs : FS) (r : Request)
    (apiKey : string) (fh : FileHeader) :
  carries r apiKey fh ->
  Filename fh = ".epub" ->
  storageSound env ->
  let o := uploadHandler env fs r apiKey in
  let name := time.Format (now env) layout ++ "_.epub" in
  HasSuffix (ToLower (Filename fh)) ".epub" = true /\
  StatusCode (response o) = StatusOK /\
  readObject (Payload (response o))
    = Some (successObject name (Z.of_nat (length (content fh)))) /\
  destPath (now env) (Filename fh) = UPLOAD_DIR ++ "/" ++ name /\
  files o !! (UPLOAD_DIR ++ "/" ++ name) = Some (content fh).
Proof.
  intros Hc Hn Hst o name.
  assert (He : HasSuffix (ToLower (Filename fh)) ".epub" = true)
    by now rewrite Hn.
  assert (Hname : safeFilename (now env) (Filename fh) = name)
    by now rewrite safeFilename_eq, Hn.
  assert (Hpath : destPath (now env) (Filename fh) = UPLOAD_DIR ++ "/" ++ name)
    by now rewrite (destPath_checked _ _ He), Hn.
  subst o. rewrite (upload_stored env fs r apiKey fh Hc He Hst).
  cbn [response files StatusCode Payload]. rewrite Hname, Hpath.
  destruct (tame_Format (now env)) as [_ Hp].
  split; [exact He |]. repeat split.
  - apply success_body_reads; [| lia].
    subst name. now rewrite plain_append, Hp.
  - apply lookup_insert_eq.
Qed.

End Pipeline.

(** ** The properties at the sample requests *)
Module Witness.
Import GoString os io http main json Props.
Import StringFacts NameFacts Pipeline.

(** The sample request carries its file. *)
Ltac carry :=
  unfold carries; repeat split;
  [ vm_compute; discriminate
  | eexists _, _; split; reflexivity ].

Ltac calendar := unfold time.valid; simpl; lia.

Lemma valid_upload_is_stored_witness :
  let o := uploadHandler (Sample.env Sample.clock noFaults) ∅
             (Sample.request "POST" "k" "book.epub" 300) "k" in
  exists name,
    StatusCode (response o) = StatusOK /\
    readObject (Payload (response o)) = Some (successObject name 4) /\
    stamped "book.epub" name = true /\
    hasSlash name = false /\
    destPath Sample.clock "book.epub" = UPLOAD_DIR ++ "/" ++ name /\
    files o !! (UPLOAD_DIR ++ "/" ++ name) = Some Sample.data.
Proof.
  apply (valid_upload_is_stored (Sample.env Sample.clock noFaults) ∅
           (Sample.request "POST" "k" "book.epub" 300) "k"
           (Sample.header "book.epub")).
  - carry.
  - reflexivity.
  - split; reflexivity.
  - calendar.
Defined.

Lemma failed_copy_is_cleaned_up_witness :
  let o := uploadHandler (Sample.env Sample.clock Sample.writeFault) ∅
             (Sample.request "POST" "k" "book.epub" 300) "k" in
  response o = Error "Failed to save file" StatusInternalServerError /\
  StatusCode (response o) = 500%Z /\
  (removeErr Sample.writeFault = None ->
   files o !! destPath Sample.clock "book.epub" = None).
Proof.
  apply (failed_copy_is_cleaned_up (Sample.env Sample.clock Sample.writeFault)
           ∅ (Sample.request "POST" "k" "book.epub" 300) "k"
           (Sample.header "book.epub") 2 "no space left on device").
  - carry.
  - reflexivity.
  - reflexivity.
  - reflexivity.
Defined.

Lemma wrong_key_is_unauthorized_witness :
  let s := {| serverKey := "s3cret"; serverPort := "8080" |} in
  let o := serve s (Sample.env Sample.clock noFaults) ∅
             (Sample.keyless "book.epub") in
  serverKey s <> "" /\
  StatusCode (response o) = 401%Z /\
  bodyRead o = 0%Z /\
  files o = ∅ /\
  forall b : Body,
    serve s (Sample.env Sample.clock noFaults) ∅
      (withBody (Sample.keyless "book.epub") b) = o.
Proof.
  apply (wrong_key_is_unauthorized Sample.environ true
           {| serverKey := "s3cret"; serverPort := "8080" |}
           (Sample.env Sample.clock noFaults) ∅ (Sample.keyless "book.epub")).
  - reflexivity.
  - reflexivity.
  - reflexivity.
  - left. reflexivity.
Defined.


Lemma wrong_extension_is_rejected_witness :
  let o := uploadHandler (Sample.env Sample.clock noFaults) ∅
             (Sample.request "POST" "k" "book.pdf" 300) "k" in
  StatusCode (response o) = 400%Z /\ files o = ∅.
Proof.
  apply (wrong_extension_is_rejected (Sample.env Sample.clock noFaults) ∅
           (Sample.request "POST" "k" "book.pdf" 300) "k"
           (Sample.header "book.pdf")).
  - carry.
  - intros H. apply extension_check_spec in H. vm_compute in H.
    discriminate H.
Defined.

Lemma derived_path_stays_inside_root_witness :
  insideRoot (destPath Sample.clock "../../etc/passwd.epub") /\
  destPath Sample.clock "../../etc/passwd.epub"
    = "/app/uploads/20240309_070559_passwd.epub".
Proof.
  destruct (derived_path_stays_inside_root Sample.clock "../../etc/passwd.epub")
    as [Hin Hc].
  split; [exact Hin |].
  destruct (Hc eq_refl) as (E & _). rewrite E. reflexivity.
Defined.

Lemma other_methods_are_refused_witness :
  let o := uploadHandler (Sample.env Sample.clock noFaults) ∅
             (Sample.request "GET" "k" "book.epub" 300) "k" in
  StatusCode (response o) = 405%Z /\
  files o = ∅ /\
  bodyRead o = 0%Z /\
  forall (r' : Request) (apiKey' : string),
    Method r' = "GET" ->
    uploadHandler (Sample.env Sample.clock noFaults) ∅ r' apiKey' = o.
Proof.
  apply (other_methods_are_refused (Sample.env Sample.clock noFaults) ∅
           (Sample.request "GET" "k" "book.epub" 300) "k").
  discriminate.
Defined.

Lemma two_uploads_two_artifacts_witness :
  let o1 := uploadHandler (Sample.env Sample.clock noFaults) ∅
              (Sample.request "POST" "k" "book.epub" 300) "k" in
  let o2 := uploadHandler (Sample.env Sample.laterClock noFaults) (files o1)
              (Sample.request "POST" "k" "book.epub" 300) "k" in
  let name1 := safeFilename Sample.clock "book.epub" in
  let name2 := safeFilename Sample.laterClock "book.epub" in
  let path1 := destPath Sample.clock "book.epub" in
  let path2 := destPath Sample.laterClock "book.epub" in
  name1 <> name2 /\
  path1 = UPLOAD_DIR ++ "/" ++ name1 /\
  path2 = UPLOAD_DIR ++ "/" ++ name2 /\
  path1 <> path2 /\
  files o2 !! path1 = Some Sample.data /\
  files o2 !! path2 = Some Sample.data.
Proof.
  apply (two_uploads_two_artifacts
           (Sample.env Sample.clock noFaults)
           (Sample.env Sample.laterClock noFaults) ∅
           (Sample.request "POST" "k" "book.epub" 300)
           (Sample.request "POST" "k" "book.epub" 300) "k"
           (Sample.header "book.epub") (Sample.header "book.epub")).
  - carry.
  - carry.
  - reflexivity.
  - calendar.
  - calendar.
  - discriminate.
  - vm_compute. reflexivity.
  - vm_compute. reflexivity.
Defined.

Lemma bare_extension_is_accepted_witness :
  let o := uploadHandler (Sample.env Sample.clock noFaults) ∅
             (Sample.request "POST" "k" ".epub" 300) "k" in
  let name := time.Format Sample.clock layout ++ "_.epub" in
  HasSuffix (ToLower ".epub") ".epub" = true /\
  StatusCode (response o) = StatusOK /\
  readObject (Payload (response o)) = Some (successObject name 4) /\
  destPath Sample.clock ".epub" = UPLOAD_DIR ++ "/" ++ name /\
  files o !! (UPLOAD_DIR ++ "/" ++ name) = Some Sample.data.
Proof.
  apply (bare_extension_is_accepted (Sample.env Sample.clock noFaults) ∅
           (Sample.request "POST" "k" ".epub" 300) "k"
           (Sample.header ".epub")).
  - carry.
  - reflexivity.
  - split; reflexivity.
Defined.

(** When the removal fails too the answer is the same 500, and the two
    bytes written stay at the destination path. *)
Example failed_removal_keeps_the_status :
  let o := uploadHandler (Sample.env Sample.clock Sample.writeAndRemoveFault)
             ∅ (Sample.request "POST" "k" "book.epub" 300) "k" in
  response o = Error "Failed to save file" StatusInternalServerError /\
  files o !! "/app/uploads/20240309_070559_book.epub"
    = Some (take 2 Sample.data).
Proof. vm_compute. split; reflexivity. Qed.

(** The body of the health check is a JSON object. *)
Example health_body_reads :
  readObject (Payload (response (healthHandler ∅
                (Sample.request "GET" "" "" 0))))
  = Some [("status", JString "healthy")].
Proof. vm_compute. reflexivity. Qed.

Example maskAPIKey_long : maskAPIKey "abcdefghijklmnop" = "abcd********mnop".
Proof. reflexivity. Qed.

Example maskAPIKey_short : maskAPIKey "s3cret" = "****".
Proof. reflexivity. Qed.

End Witness.

(** ** Every run of the handler *)
Module RunFacts.
Import GoString os io http main json Props.
Import StringFacts PathFacts StampFacts JsonFacts NameFacts HandlerFacts.

(** [os.Create] fails: the sixth exit. *)
Lemma upload_create_failed (env : Env) (fs : FS) (r : Request)
    (apiKey : string) (fh : FileHeader) (e : string) :
  carries r apiKey fh ->
  HasSuffix (ToLower (Filename fh)) ".epub" = true ->
  createErr (faults env) = Some e ->
  uploadHandler env fs r apiKey =
  {| response := Error "Failed to save file" StatusInternalServerError;
     files := fs;
     logged := ["Failed to create destination file: " ++ e];
     bodyRead := wireLen (body r) |}.
Proof.
  intros Hc He Hcr.
  destruct Hc as (Hm & Hk & Hw & form & rest & Hd & Hf).
  unfold uploadHandler.
  rewrite Hm, Hk, !String.eqb_refl, (parse_within _ Hw), Hd.
  unfold FormFile. rewrite Hf, He. unfold os.Create. rewrite Hcr.
  cbv beta iota zeta delta [negb]. f_equal. f_equal.
  unfold fmt.Sprintf. simpl. now rewrite append_nil_r.
Qed.

(** The four ways a request is turned away before its file is looked at,
    or else the request carries a file. *)
Lemma gate_cases (env : Env) (fs : FS) (r : Request) (apiKey : string) :
  let o := uploadHandler env fs r apiKey in
  let early msg code read :=
    {| response := Error msg code; files := fs; logged := [];
       bodyRead := read |} in
  (exists fh, carries r apiKey fh) \/
  (Method r <> MethodPost /\
   o = early "Method not allowed" StatusMethodNotAllowed 0%Z) \/
  (Method r = MethodPost /\ Get (Query r) "api_key" <> apiKey /\
   o = early "Invalid API key" StatusUnauthorized 0%Z) \/
  (Method r = MethodPost /\ Get (Query r) "api_key" = apiKey /\
   (MAX_FILE_SIZE < wireLen (body r))%Z /\
   o = early "File too large or invalid form" StatusBadRequest MAX_FILE_SIZE) \/
  (Method r = MethodPost /\ Get (Query r) "api_key" = apiKey /\
   (wireLen (body r) <= MAX_FILE_SIZE)%Z /\ decoded (body r) = None /\
   o = early "File too large or invalid form" StatusBadRequest
         (wireLen (body r))) \/
  (Method r = MethodPost /\ Get (Query r) "api_key" = apiKey /\
   (wireLen (body r) <= MAX_FILE_SIZE)%Z /\
   (exists form, decoded (body r) = Some form /\
      (File form !! "epub" = None \/ File form !! "epub" = Some [])) /\
   o = early "Failed to get uploaded file" StatusBadRequest
         (wireLen (body r))).
Proof.
  intros o early. subst o early. unfold uploadHandler.
  destruct (String.eqb_spec (Method r) MethodPost) as [Hm | Hm];
    cbn [negb]; [| right; left; split; [assumption | reflexivity]].
  destruct (String.eqb_spec (Get (Query r) "api_key") apiKey) as [Hk | Hk];
    cbn [negb];
    [| right; right; left; repeat split; assumption].
  destruct (Z.le_gt_cases (wireLen (body r)) MAX_FILE_SIZE) as [Hw | Hw].
  - rewrite (parse_within _ Hw).
    destruct (decoded (body r)) as [form|] eqn:Hd.
    + unfold FormFile. destruct (File form !! "epub") as [[|fh rest]|] eqn:Hf.
      * do 5 right. repeat split; try assumption.
        exists form. split; [reflexivity | now right].
      * left. exists fh. repeat split; try assumption.
        exists form, rest. split; assumption.
      * do 5 right. repeat split; try assumption.
        exists form. split; [reflexivity | now left].
    + do 4 right. left. repeat split; assumption.
  - rewrite (parse_beyond _ Hw). do 3 right. left. repeat split; assumption.
Qed.

(** The four ends of a request that carries a file. *)
Lemma carried_cases (env : Env) (fs : FS) (r : Request) (apiKey : string)
    (fh : FileHeader) :
  carries r apiKey fh ->
  let o := uploadHandler env fs r apiKey in
  let dest := destPath (now env) (Filename fh) in
  let name := safeFilename (now env) (Filename fh) in
  let size := Z.of_nat (length (content fh)) in
  (HasSuffix (ToLower (Filename fh)) ".epub" = false /\
   o = {| response := Error "File must be an EPUB" StatusBadRequest;
          files := fs; logged := []; bodyRead := wireLen (body r) |}) \/
  (HasSuffix (ToLower (Filename fh)) ".epub" = true /\
   exists e, createErr (faults env) = Some e /\
   o = {| response := Error "Failed to save file" StatusInternalServerError;
          files := fs;
          logged := ["Failed to create destination file: " ++ e];
          bodyRead := wireLen (body r) |}) \/
  (HasSuffix (ToLower (Filename fh)) ".epub" = true /\
   createErr (faults env) = None /\
   exists n e, writeErr (faults env) = Some (n, e) /\
   o = {| response := Error "Failed to save file" StatusInternalServerError;
          files := fst (os.Remove (faults env)
                          (<[dest := take n (content fh)]> fs) dest);
          logged := [fmt.Sprintf "Failed to copy file: %v" [fmt.Str e]];
          bodyRead := wireLen (body r) |}) \/
  (HasSuffix (ToLower (Filename fh)) ".epub" = true /\
   storageSound env /\
   o = {| response :=
            {| Header := <["Content-Type" := "application/json"]> ∅;
               StatusCode := StatusOK;
               Payload := fmt.Sprintf successFormat
                            [fmt.Str name; fmt.Int size] |};
          files := <[dest := content fh]> fs;
          logged := [fmt.Sprintf "Successfully uploaded EPUB: %s (%d bytes)"
                       [fmt.Str name; fmt.Int size]];
          bodyRead := wireLen (body r) |}).
Proof.
  intros Hc o dest name size. subst o dest name size.
  destruct (HasSuffix (ToLower (Filename fh)) ".epub") eqn:He.
  - destruct (createErr (faults env)) as [e|] eqn:Hcr.
    + right. left. split; [reflexivity |]. exists e. split; [reflexivity |].
      now apply (upload_create_failed env fs r apiKey fh e).
    + destruct (writeErr (faults env)) as [[n e]|] eqn:Hwr.
      * right. right. left. repeat split. exists n, e.
        split; [reflexivity |].
        now apply (upload_copy_failed env fs r apiKey fh n e).
      * do 3 right. split; [reflexivity |].
        assert (Hst : storageSound env) by (split; assumption).
        split; [exact Hst |].
        now apply (upload_stored env fs r apiKey fh).
  - left. split; [reflexivity |].
    now apply (upload_refused env fs r apiKey fh).
Qed.

(** The files after [os.Remove] differ from those before at the removed
    path at most. *)
Lemma Remove_frame (fl : Faults) (fs : FS) (name p : string) :
  p <> name -> fst (os.Remove fl fs name) !! p = fs !! p.
Proof.
  intros Hp. unfold os.Remove. destruct (removeErr fl); [reflexivity |].
  destruct (fs !! name); [| reflexivity]. cbn [fst].
  now apply lookup_delete_ne.
Qed.


(** The last element of a path that ends in a text without separator ends
    in that text. *)
Lemma lastElement_append (p s : string) :
  hasSlash s = false -> s <> "" ->
  filepath.lastElement (p ++ s) = filepath.lastElement p ++ s.
Proof.
  intros Hs Hne. induction p as [|c p IH].
  - simpl. now apply lastElement_plain.
  - simpl. rewrite hasSlash_append, Hs, orb_false_r.
    destruct (hasSlash p); [exact IH |].
    destruct (isSlash c); reflexivity.
Qed.

Lemma substring_prefix (p r : string) :
  substring 0 (String.length p) (p ++ r) = p.
Proof.
  induction p as [|c p IH]; simpl.
  - destruct r; reflexivity.
  - now rewrite IH.
Qed.

Lemma substring_skip (p r : string) (m : nat) :
  substring (String.length p) m (p ++ r) = substring 0 m r.
Proof. induction p as [|c p IH]; simpl; [reflexivity | exact IH]. Qed.

Lemma substring_all (s : string) : substring 0 (String.length s) s = s.
Proof. induction s as [|c s IH]; simpl; [reflexivity | now rewrite IH]. Qed.

Lemma length_Repeat_star (n : nat) : String.length (Repeat "*" n) = n.
Proof. induction n as [|n IH]; simpl; [reflexivity | now rewrite IH]. Qed.

(** The reader only adds to the tokens it has. *)
Lemma scan_extends (s : string) (st : state) (out toks : list token) :
  scan st s out = Some toks -> exists more, toks = (out ++ more)%list.
Proof.
  revert st out. induction s as [|c s IH]; intros st out H; simpl in H.
  - destruct st; try discriminate H; injection H as <-.
    + exists []. now rewrite app_nil_r.
    + now eexists.
    + now eexists.
  - destruct (step st c) as [[st' emitted]|]; [| discriminate H].
    destruct (IH _ _ H) as [more ->]. exists (emitted ++ more)%list.
    now rewrite app_assoc.
Qed.

End RunFacts.

(** ** Further properties of [main.go] *)
Module Beyond.
Import GoString os io http main json Props.
Import StringFacts PathFacts StampFacts JsonFacts NameFacts HandlerFacts.
Import RunFacts.

(** The cases of a run, as equations on the outcome. *)
Ltac run_cases env fs r apiKey :=
  let G := fresh "G" in
  pose proof (gate_cases env fs r apiKey) as G; cbv beta zeta in G;
  destruct G as [[?fh ?Hc] | [(?Hm & ?Ho) | [(?Hm & ?Hk & ?Ho) |
    [(?Hm & ?Hk & ?Hw & ?Ho) | [(?Hm & ?Hk & ?Hw & ?Hd & ?Ho) |
    (?Hm & ?Hk & ?Hw & ?Hd & ?Ho)]]]]].

Ltac carried_run env fs r apiKey fh Hc :=
  let G := fresh "G" in
  pose proof (carried_cases env fs r apiKey fh Hc) as G; cbv beta zeta in G;
  destruct G as [(?He & ?Ho) | [(?He & ?e & ?Hcr & ?Ho) |
    [(?He & ?Hcr & ?n & ?e & ?Hwr & ?Ho) | (?He & ?Hst & ?Ho)]]].

(** X1: the mask of a key of more than eight bytes has the length of the
    key: its first four bytes, a star for every byte in between, and its
    last four bytes. *)
Theorem maskAPIKey_shows_only_the_ends (p m s : string) :
  String.length p = 4%nat -> String.length s = 4%nat -> m <> "" ->
  maskAPIKey (p ++ m ++ s) = p ++ Repeat "*" (String.length m) ++ s /\
  String.length (maskAPIKey (p ++ m ++ s)) = String.length (p ++ m ++ s).
Proof.
  intros Hp Hs Hm.
  assert (Hlen : (1 <= String.length m)%nat).
  { destruct m; [congruence | simpl; lia]. }
  assert (E : maskAPIKey (p ++ m ++ s) = p ++ Repeat "*" (String.length m) ++ s).
  { unfold maskAPIKey. rewrite !length_append, Hp, Hs.
    replace (4 + (String.length m + 4) <=? 8)%nat with false
      by (symmetry; apply Nat.leb_gt; lia).
    replace (4 + (String.length m + 4) - 8)%nat with (String.length m) by lia.
    pose proof (substring_prefix p (m ++ s)) as A1. rewrite Hp in A1.
    rewrite A1.
    replace (4 + (String.length m + 4) - 4)%nat
      with (String.length (p ++ m)) by (rewrite length_append; lia).
    rewrite <- (append_assoc p m s), substring_skip.
    pose proof (substring_all s) as A3. rewrite Hs in A3. now rewrite A3. }
  split; [exact E |].
  rewrite E, !length_append, length_Repeat_star. reflexivity.
Qed.

(** X2: [main] stops before it serves exactly when [API_KEY] is not set,
    is set to the empty string, or the upload directory cannot be made. *)
Theorem startup_is_fatal_without_key (environ : gmap string string)
    (mkdirOk : bool) :
  main.main environ mkdirOk = None <->
  environ !! "API_KEY" = None \/ environ !! "API_KEY" = Some "" \/
  mkdirOk = false.
Proof.
  unfold main.main, Getenv. cbv zeta.
  destruct (environ !! "API_KEY") as [k|]; cbn [default from_option id].
  - destruct (String.eqb_spec k "") as [-> | Hne].
    + split; [intros _; right; now left | reflexivity].
    + destruct mkdirOk; cbn [negb].
      * split; [intros H; discriminate H |].
        intros [H | [H | H]];
          [discriminate H | injection H as H; congruence | discriminate H].
      * split; [intros _; right; now right | reflexivity].
  - split; [intros _; now left | reflexivity].
Qed.

(** X3: the server [main] starts holds the value of [API_KEY], which is
    not empty, and listens on [PORT], on 8080 when [PORT] is not set or is
    empty. *)
Theorem started_server_configuration (environ : gmap string string)
    (mkdirOk : bool) (s : Server) :
  main.main environ mkdirOk = Some s ->
  environ !! "API_KEY" = Some (serverKey s) /\
  serverKey s <> "" /\
  mkdirOk = true /\
  serverPort s <> "" /\
  (environ !! "PORT" = None \/ environ !! "PORT" = Some "" ->
   serverPort s = "8080") /\
  (forall p, environ !! "PORT" = Some p -> p <> "" -> serverPort s = p).
Proof.
  unfold main.main, Getenv. cbv zeta. intros H.
  destruct (environ !! "API_KEY") as [k|]; cbn [default from_option id] in H;
    [| discriminate].
  destruct (String.eqb_spec k "") as [Hk | Hne]; [discriminate H |].
  destruct mkdirOk; cbn [negb] in H; [| discriminate H].
  injection H as <-. cbn [serverKey serverPort].
  destruct (environ !! "PORT") as [p|]; cbn [default from_option id].
  - destruct (String.eqb_spec p "") as [-> | Hp]; repeat split;
      try assumption; try discriminate.
    + intros q Hq Hne'. injection Hq as <-. congruence.
    + intros [H | H]; [discriminate | injection H as H; congruence].
    + intros q Hq _. now injection Hq as <-.
  - repeat split; try assumption; try discriminate.
Qed.

(** X4: a request to /health is answered 200 with the JSON object of the
    status [healthy], whatever its method, its query and the key of the
    server; no file changes, the body is not read and nothing is logged. *)
Theorem health_needs_no_key (s : Server) (env : Env) (fs : FS) (r : Request) :
  Path r = "/health" ->
  let o := serve s env fs r in
  StatusCode (response o) = 200%Z /\
  Header (response o) !! "Content-Type" = Some "application/json" /\
  readObject (Payload (response o)) = Some [("status", JString "healthy")] /\
  files o = fs /\ bodyRead o = 0%Z /\ logged o = [].
Proof.
  intros Hp o. subst o. unfold serve. rewrite Hp.
  change (String.eqb "/health" "/upload") with false.
  change (String.eqb "/health" "/health") with true.
  cbv beta iota. unfold healthHandler. cbn [response files bodyRead logged
    StatusCode Header Payload].
  repeat split.
Qed.

(** X5: an authenticated POST within the ceiling whose form has no file
    in the field [epub] is answered 400 with the message of the missing
    file; no file is created. *)
Theorem missing_file_field_is_rejected (env : Env) (fs : FS) (r : Request)
    (apiKey : string) (form : Form) :
  Method r = MethodPost ->
  Get (Query r) "api_key" = apiKey ->
  (wireLen (body r) <= MAX_FILE_SIZE)%Z ->
  decoded (body r) = Some form ->
  File form !! "epub" = None \/ File form !! "epub" = Some [] ->
  let o := uploadHandler env fs r apiKey in
  response o = Error "Failed to get uploaded file" StatusBadRequest /\
  StatusCode (response o) = 400%Z /\
  files o = fs /\ logged o = [].
Proof.
  intros Hm Hk Hw Hd Hf o. subst o. unfold uploadHandler.
  rewrite Hm, Hk, !String.eqb_refl, (parse_within _ Hw), Hd.
  unfold FormFile. destruct Hf as [-> | ->]; repeat split.
Qed.


(** X7: when the destination file cannot be created the answer is the 500
    with the fixed message, the same for every cause; the cause goes to the
    log, and the files are as they were. *)
Theorem create_failure_is_not_disclosed (env : Env) (fs : FS) (r : Request)
    (apiKey : string) (fh : FileHeader) (e : string) :
  carries r apiKey fh ->
  HasSuffix (ToLower (Filename fh)) ".epub" = true ->
  createErr (faults env) = Some e ->
  let o := uploadHandler env fs r apiKey in
  response o = Error "Failed to save file" StatusInternalServerError /\
  StatusCode (response o) = 500%Z /\
  Payload (response o) = "Failed to save file" ++ newline /\
  logged o = ["Failed to create destination file: " ++ e] /\
  files o = fs.
Proof.
  intros Hc He Hcr o. subst o.
  rewrite (upload_create_failed env fs r apiKey fh e Hc He Hcr).
  repeat split.
Qed.

(** X8: when the copy fails after [n] bytes and the removal of the partial
    file fails too, the answer is 500 and the destination path is left with
    the first [n] bytes of the upload; every other path is as it was. *)
Theorem failed_removal_leaves_partial_file (env : Env) (fs : FS)
    (r : Request) (apiKey : string) (fh : FileHeader) (n : nat)
    (e e' : string) :
  carries r apiKey fh ->
  HasSuffix (ToLower (Filename fh)) ".epub" = true ->
  createErr (faults env) = None ->
  writeErr (faults env) = Some (n, e) ->
  removeErr (faults env) = Some e' ->
  let o := uploadHandler env fs r apiKey in
  let dest := destPath (now env) (Filename fh) in
  StatusCode (response o) = 500%Z /\
  files o !! dest = Some (take n (content fh)) /\
  forall p, p <> dest -> files o !! p = fs !! p.
Proof.
  intros Hc He Hcr Hwr Hrm o dest. subst o dest.
  rewrite (upload_copy_failed env fs r apiKey fh n e Hc He Hcr Hwr).
  cbn [response files StatusCode]. unfold os.Remove. rewrite Hrm. cbn [fst].
  repeat split.
  - apply lookup_insert_eq.
  - intros p Hp. now apply lookup_insert_ne.
Qed.

(** X9: a request answered 400, 401 or 405 leaves no trace: the files are
    as they were and nothing is logged. *)
Theorem client_errors_leave_no_trace (env : Env) (fs : FS) (r : Request)
    (apiKey : string) :
  clientError (StatusCode (response (uploadHandler env fs r apiKey))) = true ->
  files (uploadHandler env fs r apiKey) = fs /\
  logged (uploadHandler env fs r apiKey) = [].
Proof.
  intros H. run_cases env fs r apiKey;
    try (rewrite Ho; split; reflexivity).
  carried_run env fs r apiKey fh Hc;
    try (rewrite Ho; split; reflexivity);
    rewrite Ho in H; discriminate H.
Qed.

(** X10: whatever the request, the clock and the faults, the handler
    changes no path other than a file directly under the upload root. *)
Theorem only_the_upload_root_is_written (env : Env) (fs : FS) (r : Request)
    (apiKey p : string) :
  ~ insideRoot p ->
  files (uploadHandler env fs r apiKey) !! p = fs !! p.
Proof.
  intros Hp. run_cases env fs r apiKey; try (now rewrite Ho).
  assert (Hne : p <> destPath (now env) (Filename fh)).
  { intros ->. apply Hp. apply Pipeline.destPath_insideRoot. }
  carried_run env fs r apiKey fh Hc; rewrite Ho; cbn [files];
    try reflexivity.
  - rewrite Remove_frame by assumption. now apply lookup_insert_ne.
  - now apply lookup_insert_ne.
Qed.



(** X13: a request that carries a file gets the reply [File must be an
    EPUB] exactly when the declared name does not end in [.epub], the case
    of the letters set aside: the storage and the clock play no part. *)
Theorem extension_reply_is_exact (env : Env) (fs : FS) (r : Request)
    (apiKey : string) (fh : FileHeader) :
  carries r apiKey fh ->
  (response (uploadHandler env fs r apiKey)
     = Error "File must be an EPUB" StatusBadRequest
   <-> ~ endsInEpub (Filename fh)).
Proof.
  intros Hc. split.
  - intros H Hends. apply extension_check_spec in Hends.
    apply (f_equal StatusCode) in H.
    carried_run env fs r apiKey fh Hc; try congruence;
      rewrite Ho in H; discriminate H.
  - intros Hn.
    assert (He : HasSuffix (ToLower (Filename fh)) ".epub" = false).
    { destruct (HasSuffix (ToLower (Filename fh)) ".epub") eqn:E;
        [| reflexivity].
      exfalso. apply Hn. now apply extension_check_spec. }
    now rewrite (upload_refused env fs r apiKey fh Hc He).
Qed.

(** X14: the name a file is stored under ends in [.epub] as the declared
    name does: the base name and the stored name of a name that passes the
    extension check pass it too. *)
Theorem stored_names_end_in_epub (t : time.Time) (filename : string) :
  HasSuffix (ToLower filename) ".epub" = true ->
  HasSuffix (ToLower (filepath.Base filename)) ".epub" = true /\
  HasSuffix (ToLower (safeFilename t filename)) ".epub" = true /\
  endsInEpub (safeFilename t filename).
Proof.
  intros He. destruct (Base_extension _ He) as (HB & _ & _).
  pose proof He as Hends. apply extension_check_spec in Hends.
  destruct Hends as (p & c1 & c2 & c3 & c4 & E & H1 & H2 & H3 & H4).
  set (ext := String "." (String c1 (String c2 (String c3 (String c4 "")))))
    in *.
  assert (Hs : hasSlash ext = false).
  { subst ext. destruct H1 as [-> | ->], H2 as [-> | ->], H3 as [-> | ->],
      H4 as [-> | ->]; reflexivity. }
  assert (Hbase : filepath.Base filename = filepath.lastElement p ++ ext).
  { rewrite HB, E. apply lastElement_append; [exact Hs | discriminate]. }
  assert (Hb : endsInEpub (filepath.Base filename)).
  { exists (filepath.lastElement p), c1, c2, c3, c4.
    split; [exact Hbase | repeat split; assumption]. }
  assert (Hn : endsInEpub (safeFilename t filename)).
  { exists (time.Format t layout ++ "_" ++ filepath.lastElement p),
      c1, c2, c3, c4.
    split; [| repeat split; assumption].
    rewrite safeFilename_eq, Hbase. fold ext.
    now rewrite !append_assoc. }
  split; [now apply extension_check_spec |].
  split; [now apply extension_check_spec | exact Hn].
Qed.

(** X15: two uploads that both succeed at one clock reading with one base
    name go to one path: the second replaces the first, and the files are
    what the second upload alone would have left. *)
Theorem same_second_same_name_last_wins (env1 env2 : Env) (fs : FS)
    (r1 r2 : Request) (apiKey : string) (fh1 fh2 : FileHeader) :
  carries r1 apiKey fh1 ->
  carries r2 apiKey fh2 ->
  now env1 = now env2 ->
  filepath.Base (Filename fh1) = filepath.Base (Filename fh2) ->
  let o1 := uploadHandler env1 fs r1 apiKey in
  let o2 := uploadHandler env2 (files o1) r2 apiKey in
  StatusCode (response o1) = StatusOK ->
  StatusCode (response o2) = StatusOK ->
  destPath (now env1) (Filename fh1) = destPath (now env2) (Filename fh2) /\
  files o2 !! destPath (now env2) (Filename fh2) = Some (content fh2) /\
  files o2 = files (uploadHandler env2 fs r2 apiKey).
Proof.
  intros Hc1 Hc2 Hnow Hbase o1 o2 Hok1 Hok2.
  destruct (upload_ok_inv env1 fs r1 apiKey fh1 Hc1 Hok1) as [He1 Hst1].
  destruct (upload_ok_inv env2 (files o1) r2 apiKey fh2 Hc2 Hok2)
    as [He2 Hst2].
  assert (Hpath : destPath (now env1) (Filename fh1)
                  = destPath (now env2) (Filename fh2)).
  { unfold destPath, safeFilename. now rewrite Hnow, Hbase. }
  subst o2 o1.
  rewrite (upload_stored env2 fs r2 apiKey fh2 Hc2 He2 Hst2).
  rewrite (upload_stored env1 fs r1 apiKey fh1 Hc1 He1 Hst1).
  cbn [files].
  rewrite (upload_stored env2 _ r2 apiKey fh2 Hc2 He2 Hst2).
  cbn [files]. rewrite Hpath.
  split; [reflexivity |]. split; [apply lookup_insert_eq |].
  apply insert_insert_eq.
Qed.


(** X17: every answer is the success or one of six fixed replies: the
    text sent with an error never depends on the request or on the cause
    of a storage fault. *)
Theorem error_replies_are_fixed (env : Env) (fs : FS) (r : Request)
    (apiKey : string) :
  let o := uploadHandler env fs r apiKey in
  StatusCode (response o) = StatusOK \/
  exists msg code, In (msg, code) errorReplies /\ response o = Error msg code.
Proof.
  intros o. subst o. unfold errorReplies.
  run_cases env fs r apiKey;
    try (right; rewrite Ho; do 2 eexists; split; [| reflexivity];
         simpl; tauto).
  carried_run env fs r apiKey fh Hc;
    try (right; rewrite Ho; do 2 eexists; split; [| reflexivity];
         simpl; tauto).
  left. now rewrite Ho.
Qed.

(** X18: the gate is exact: the answer is 405 exactly when the method is
    not POST, and 401 exactly when the method is POST and the first
    [api_key] of the query, the empty string without one, is not the key
    byte for byte. *)
Theorem gate_is_exact (env : Env) (fs : FS) (r : Request) (apiKey : string) :
  let o := uploadHandler env fs r apiKey in
  (StatusCode (response o) = 405%Z <-> Method r <> MethodPost) /\
  (StatusCode (response o) = 401%Z <->
   Method r = MethodPost /\ Get (Query r) "api_key" <> apiKey).
Proof.
  intros o. subst o.
  run_cases env fs r apiKey.
  - pose proof Hc as (Hm & Hk & _).
    carried_run env fs r apiKey fh Hc; rewrite Ho; cbn [response StatusCode];
      (split; split;
       [ intros H; discriminate H | intros H; congruence
       | intros H; discriminate H | intros [_ H]; congruence ]).
  - rewrite Ho. split; split; try tauto; try reflexivity.
    + intros H; discriminate H.
  - rewrite Ho. split; split; try tauto; try reflexivity.
    + intros H; discriminate H.
  - rewrite Ho. split; split; try tauto; try congruence;
      intros H; discriminate H.
  - rewrite Ho. split; split; try tauto; try congruence;
      intros H; discriminate H.
  - rewrite Ho. split; split; try tauto; try congruence;
      intros H; discriminate H.
Qed.

(** X19: a stored name with a double quote after plain bytes breaks the
    success body: whatever follows the quote, the body does not read back
    as the object of that name. *)
Theorem quoted_names_are_not_reported (a b : string) (n : Z) :
  plain a = true ->
  readObject (fmt.Sprintf successFormat [fmt.Str (a ++ quote ++ b); fmt.Int n])
  <> Some (successObject (a ++ quote ++ b) n).
Proof.
  intros Hp. rewrite Sprintf_success. unfold readObject. simpl.
  rewrite append_assoc, (scan_plain a _ "" _ Hp). simpl.
  match goal with
  | |- context [scan Idle ?s ?out] => destruct (scan Idle s out) as [toks|] eqn:E
  end; [| discriminate].
  apply scan_extends in E as [more ->]. simpl.
  assert (Hne : a <> a ++ quote ++ b).
  { intros H. apply (f_equal String.length) in H.
    rewrite !length_append in H. simpl in H. lia. }
  destruct more as [|[] more]; try discriminate.
  - destruct more; [| discriminate]. intros H. injection H; intros.
    now apply Hne.
  - destruct (members more); [| discriminate].
    intros H. injection H; intros. now apply Hne.
Qed.


(** X21: an upload disturbs no other artifact: whatever its end, every
    path other than its own destination holds what it held. *)
Theorem other_artifacts_are_kept (env : Env) (fs : FS) (r : Request)
    (apiKey : string) (fh : FileHeader) (p : string) :
  carries r apiKey fh ->
  p <> destPath (now env) (Filename fh) ->
  files (uploadHandler env fs r apiKey) !! p = fs !! p.
Proof.
  intros Hc Hne.
  carried_run env fs r apiKey fh Hc; rewrite Ho; cbn [files];
    try reflexivity.
  - rewrite Remove_frame by assumption. now apply lookup_insert_ne.
  - now apply lookup_insert_ne.
Qed.

End Beyond.

(** ** The further properties at the sample requests *)
Module BeyondWitness.
Import GoString os io http main json Props.
Import StringFacts NameFacts Beyond.

Ltac carried :=
  unfold carries; repeat split;
  [ vm_compute; discriminate
  | eexists _, _; split; reflexivity ].

Ltac within := vm_compute; discriminate.

Lemma maskAPIKey_shows_only_the_ends_witness :
  maskAPIKey "abcdefghijklmnop" = "abcd********mnop" /\
  String.length (maskAPIKey "abcdefghijklmnop") = 16%nat.
Proof.
  apply (maskAPIKey_shows_only_the_ends "abcd" "efghijkl" "mnop").
  - reflexivity.
  - reflexivity.
  - discriminate.
Defined.

Lemma startup_is_fatal_without_key_witness :
  main.main (∅ : gmap string string) true = None.
Proof.
  apply (proj2 (startup_is_fatal_without_key ∅ true)). left. reflexivity.
Defined.

Lemma started_server_configuration_witness :
  let s := {| serverKey := "s3cret"; serverPort := "8080" |} in
  Sample.environ !! "API_KEY" = Some (serverKey s) /\
  serverKey s <> "" /\
  true = true /\
  serverPort s <> "" /\
  (Sample.environ !! "PORT" = None \/ Sample.environ !! "PORT" = Some "" ->
   serverPort s = "8080") /\
  (forall p, Sample.environ !! "PORT" = Some p -> p <> "" -> serverPort s = p).
Proof.
  apply (started_server_configuration Sample.environ true
           {| serverKey := "s3cret"; serverPort := "8080" |}).
  reflexivity.
Defined.

Lemma health_needs_no_key_witness :
  let o := serve {| serverKey := "s3cret"; serverPort := "8080" |}
             (Sample.env Sample.clock noFaults) ∅ Sample.health in
  StatusCode (response o) = 200%Z /\
  Header (response o) !! "Content-Type" = Some "application/json" /\
  readObject (Payload (response o)) = Some [("status", JString "healthy")] /\
  files o = ∅ /\ bodyRead o = 0%Z /\ logged o = [].
Proof.
  apply (health_needs_no_key {| serverKey := "s3cret"; serverPort := "8080" |}
           (Sample.env Sample.clock noFaults) ∅ Sample.health).
  reflexivity.
Defined.

Lemma missing_file_field_is_rejected_witness :
  let o := uploadHandler (Sample.env Sample.clock noFaults) ∅
             (Sample.posted "k" (Some Sample.emptyForm)) "k" in
  response o = Error "Failed to get uploaded file" StatusBadRequest /\
  StatusCode (response o) = 400%Z /\
  files o = ∅ /\ logged o = [].
Proof.
  apply (missing_file_field_is_rejected (Sample.env Sample.clock noFaults) ∅
           (Sample.posted "k" (Some Sample.emptyForm)) "k" Sample.emptyForm).
  - reflexivity.
  - reflexivity.
  - within.
  - reflexivity.
  - left. reflexivity.
Defined.


Lemma create_failure_is_not_disclosed_witness :
  let o := uploadHandler (Sample.env Sample.clock Sample.createFault) ∅
             (Sample.request "POST" "k" "book.epub" 300) "k" in
  response o = Error "Failed to save file" StatusInternalServerError /\
  StatusCode (response o) = 500%Z /\
  Payload (response o) = "Failed to save file" ++ newline /\
  logged o = ["Failed to create destination file: permission denied"] /\
  files o = ∅.
Proof.
  apply (create_failure_is_not_disclosed
           (Sample.env Sample.clock Sample.createFault) ∅
           (Sample.request "POST" "k" "book.epub" 300) "k"
           (Sample.header "book.epub") "permission denied").
  - carried.
  - reflexivity.
  - reflexivity.
Defined.

Lemma failed_removal_leaves_partial_file_witness :
  let o := uploadHandler (Sample.env Sample.clock Sample.writeAndRemoveFault)
             ∅ (Sample.request "POST" "k" "book.epub" 300) "k" in
  let dest := destPath Sample.clock "book.epub" in
  StatusCode (response o) = 500%Z /\
  files o !! dest = Some (take 2 Sample.data) /\
  forall p, p <> dest -> files o !! p = (∅ : FS) !! p.
Proof.
  apply (failed_removal_leaves_partial_file
           (Sample.env Sample.clock Sample.writeAndRemoveFault) ∅
           (Sample.request "POST" "k" "book.epub" 300) "k"
           (Sample.header "book.epub") 2 "no space left on device"
           "permission denied").
  - carried.
  - reflexivity.
  - reflexivity.
  - reflexivity.
  - reflexivity.
Defined.

Lemma client_errors_leave_no_trace_witness :
  files (uploadHandler (Sample.env Sample.clock noFaults) ∅
           (Sample.request "GET" "k" "book.epub" 300) "k") = ∅ /\
  logged (uploadHandler (Sample.env Sample.clock noFaults) ∅
            (Sample.request "GET" "k" "book.epub" 300) "k") = [].
Proof.
  apply (client_errors_leave_no_trace (Sample.env Sample.clock noFaults) ∅
           (Sample.request "GET" "k" "book.epub" 300) "k").
  vm_compute. reflexivity.
Defined.

Lemma only_the_upload_root_is_written_witness :
  files (uploadHandler (Sample.env Sample.clock noFaults) ∅
           (Sample.request "POST" "k" "../../etc/passwd.epub" 300) "k")
    !! "/etc/passwd.epub" = (∅ : FS) !! "/etc/passwd.epub".
Proof.
  apply (only_the_upload_root_is_written (Sample.env Sample.clock noFaults) ∅
           (Sample.request "POST" "k" "../../etc/passwd.epub" 300) "k"
           "/etc/passwd.epub").
  intros (name & E & _). vm_compute in E. discriminate E.
Defined.



Lemma extension_reply_is_exact_witness :
  response (uploadHandler (Sample.env Sample.clock noFaults) ∅
              (Sample.request "POST" "k" "book.pdf" 300) "k")
  = Error "File must be an EPUB" StatusBadRequest.
Proof.
  assert (Hc : carries (Sample.request "POST" "k" "book.pdf" 300) "k"
                 (Sample.header "book.pdf")) by carried.
  apply (proj2 (extension_reply_is_exact (Sample.env Sample.clock noFaults) ∅
                  (Sample.request "POST" "k" "book.pdf" 300) "k"
                  (Sample.header "book.pdf") Hc)).
  intros H. apply extension_check_spec in H. vm_compute in H. discriminate H.
Defined.

Lemma stored_names_end_in_epub_witness :
  HasSuffix (ToLower (filepath.Base "shelf/Book.EPUB")) ".epub" = true /\
  HasSuffix (ToLower (safeFilename Sample.clock "shelf/Book.EPUB")) ".epub"
    = true /\
  endsInEpub (safeFilename Sample.clock "shelf/Book.EPUB").
Proof.
  apply (stored_names_end_in_epub Sample.clock "shelf/Book.EPUB").
  reflexivity.
Defined.

Lemma same_second_same_name_last_wins_witness :
  let o1 := uploadHandler (Sample.env Sample.clock noFaults) ∅
              (Sample.request "POST" "k" "book.epub" 300) "k" in
  let o2 := uploadHandler (Sample.env Sample.clock noFaults) (files o1)
              (Sample.otherRequest "shelf/book.epub") "k" in
  destPath Sample.clock "book.epub" = destPath Sample.clock "shelf/book.epub" /\
  files o2 !! destPath Sample.clock "shelf/book.epub" = Some Sample.otherData /\
  files o2 = files (uploadHandler (Sample.env Sample.clock noFaults) ∅
                      (Sample.otherRequest "shelf/book.epub") "k").
Proof.
  apply (same_second_same_name_last_wins
           (Sample.env Sample.clock noFaults)
           (Sample.env Sample.clock noFaults) ∅
           (Sample.request "POST" "k" "book.epub" 300)
           (Sample.otherRequest "shelf/book.epub") "k"
           (Sample.header "book.epub")
           {| Filename := "shelf/book.epub"; content := Sample.otherData |}).
  - carried.
  - carried.
  - reflexivity.
  - reflexivity.
  - vm_compute. reflexivity.
  - vm_compute. reflexivity.
Defined.


Lemma gate_is_exact_witness :
  StatusCode (response (uploadHandler (Sample.env Sample.clock noFaults) ∅
                          (Sample.keyless "book.epub") "k")) = 401%Z.
Proof.
  apply (proj2 (proj2 (gate_is_exact (Sample.env Sample.clock noFaults) ∅
                         (Sample.keyless "book.epub") "k"))).
  split; [reflexivity | discriminate].
Defined.

Lemma quoted_names_are_not_reported_witness :
  readObject (fmt.Sprintf successFormat
                [fmt.Str ("a" ++ quote ++ "b.epub"); fmt.Int 4])
  <> Some (successObject ("a" ++ quote ++ "b.epub") 4).
Proof.
  apply (quoted_names_are_not_reported "a" "b.epub" 4). reflexivity.
Defined.


Lemma other_artifacts_are_kept_witness :
  files (uploadHandler (Sample.env Sample.clock noFaults)
           {["/app/uploads/20240101_000000_old.epub" := Sample.otherData]}
           (Sample.request "POST" "k" "book.epub" 300) "k")
    !! "/app/uploads/20240101_000000_old.epub"
  = ({["/app/uploads/20240101_000000_old.epub" := Sample.otherData]} : FS)
      !! "/app/uploads/20240101_000000_old.epub".
Proof.
  apply (other_artifacts_are_kept (Sample.env Sample.clock noFaults)
           {["/app/uploads/20240101_000000_old.epub" := Sample.otherData]}
           (Sample.request "POST" "k" "book.epub" 300) "k"
           (Sample.header "book.epub")).
  - carried.
  - intros H. vm_compute in H. discriminate H.
Defined.

End BeyondWitness.
